(** * Light-show validator: a shallow embedding of [validator.py]

    The file follows [validate] of [validator.py] statement by statement.
    The binary file object is a byte list with a current position; reads
    past the end return short byte strings, as [file.read] does on a file
    opened in mode ["rb"]; [struct.unpack] raises [struct.error] when its
    buffer has not exactly the size of its format. Python integers are [Z];
    the two true divisions ([/]) are kept as exact rationals in [Q], of
    which the floats of the source are the roundings. *)

From Stdlib Require Import String ZArith QArith Qabs List Bool Lia Lqa.
From Stdlib Require Import Init.Byte.
Import ListNotations.

Local Open Scope Z_scope.

(** ** Bytes and integers *)

(** Iterating over a [bytes] object yields integers in [0, 256). *)
Definition u8 (b : byte) : Z := Z.of_N (Byte.to_N b).

(** Little-endian unsigned decoding, as [struct.unpack] does for ["<H"] and
    ["<I"]. *)
Fixpoint le_uint (bs : list byte) : Z :=
  match bs with
  | [] => 0
  | b :: bs' => u8 b + 256 * le_uint bs'
  end.

(** ** Exceptions, messages and results *)

(** An f-string is kept as its fragments: literal text and the formatted
    values, in the order of the source. *)
Inductive fragment : Type :=
  | Lit (s : string)
  | FmtInt (z : Z)
  | FmtTimedelta (seconds : Q).

Definition message : Type := list fragment.

Inductive Exception : Type :=
  | ValidationError (msg : message)
  | struct_error.

Inductive outcome (A : Type) : Type :=
  | Returns (a : A)
  | Raises (e : Exception).
Arguments Returns {A} a.
Arguments Raises {A} e.

Definition MEMORY_LIMIT : Z := 3500.

Record ValidationResults : Type := mkResults {
  frame_count : Z;
  step_time : Z;
  duration_s : Q;
  memory_usage : Q
}.

(** Python's [a / b] on integers. *)
Definition true_div (a b : Z) : Q := (inject_Z a / inject_Z b)%Q.

(** ** The file object and standard output *)

Record World : Type := mkWorld {
  data : list byte;
  pos : nat;
  stdout : list message
}.

(** A file freshly opened on [s]. *)
Definition open (s : list byte) : World := mkWorld s 0 [].

Definition M (A : Type) : Type := World -> outcome A * World.

Definition ret {A} (a : A) : M A := fun w => (Returns a, w).

Definition bind {A B} (m : M A) (k : A -> M B) : M B :=
  fun w =>
    match m w with
    | (Returns a, w') => k a w'
    | (Raises e, w') => (Raises e, w')
    end.

Definition raise {A} (e : Exception) : M A := fun w => (Raises e, w).

Definition lift {A} (o : outcome A) : M A := fun w => (o, w).

Notation "x <- m ;; k" := (bind m (fun x => k))
  (at level 61, m at next level, right associativity).
Notation "' pat <- m ;; k" :=
  (bind m (fun x => match x with pat => k end))
  (at level 61, pat pattern, m at next level, right associativity).
Notation "m ;;; k" := (bind m (fun _ => k))
  (at level 61, right associativity).

(** [file.read(n)] *)
Definition read (n : nat) : M (list byte) :=
  fun w =>
    let bs := firstn n (skipn (pos w) (data w)) in
    (Returns bs, mkWorld (data w) (pos w + length bs) (stdout w)).

(** [file.seek(k)] *)
Definition seek (k : Z) : M unit :=
  fun w => (Returns tt, mkWorld (data w) (Z.to_nat k) (stdout w)).

(** [file.seek(k, 1)] *)
Definition seek_cur (k : nat) : M unit :=
  fun w => (Returns tt, mkWorld (data w) (pos w + k) (stdout w)).

(** [print(msg)] *)
Definition print (msg : message) : M unit :=
  fun w => (Returns tt, mkWorld (data w) (pos w) (stdout w ++ [msg])).

(** ** [struct.unpack] *)

Definition unpack_HBB (bs : list byte) : outcome (Z * Z * Z) :=
  match bs with
  | [a0; a1; b; c] => Returns (le_uint [a0; a1], u8 b, u8 c)
  | _ => Raises struct_error
  end.

Definition unpack_IIB (bs : list byte) : outcome (Z * Z * Z) :=
  match bs with
  | [a0; a1; a2; a3; b0; b1; b2; b3; c] =>
      Returns (le_uint [a0; a1; a2; a3], le_uint [b0; b1; b2; b3], u8 c)
  | _ => Raises struct_error
  end.

Definition unpack_B (bs : list byte) : outcome Z :=
  match bs with
  | [a] => Returns (u8 a)
  | _ => Raises struct_error
  end.

(** ** Comparison of Python lists *)

Fixpoint list_eqb {A} (eqb : A -> A -> bool) (l1 l2 : list A) : bool :=
  match l1, l2 with
  | [], [] => true
  | x :: l1', y :: l2' => eqb x y && list_eqb eqb l1' l2'
  | _, _ => false
  end.

(** [state != prev], where [prev] is [None] or a list. *)
Definition differs {A} (eqb : A -> A -> bool) (state : list A)
    (prev : option (list A)) : bool :=
  match prev with
  | None => true
  | Some p => negb (list_eqb eqb state p)
  end.

(** ** The header *)

Record Header : Type := mkHeader {
  h_magic : list byte;
  h_start : Z;
  h_minor : Z;
  h_major : Z;
  h_channel_count : Z;
  h_frame_count : Z;
  h_step_time : Z;
  h_compression_type : Z
}.

(** [b'PSEQ'] *)
Definition PSEQ : list byte := [x50; x53; x45; x51].

(** "Read file header information" *)
Definition read_header : M Header :=
  magic <- read 4 ;;
  bs <- read 4 ;;
  '(start, minor, major) <- lift (unpack_HBB bs) ;;
  seek 10 ;;;
  bs <- read 9 ;;
  '(channel_count, frame_count, step_time) <- lift (unpack_IIB bs) ;;
  seek 20 ;;;
  bs <- read 1 ;;
  compression_type <- lift (unpack_B bs) ;;
  ret (mkHeader magic start minor major channel_count frame_count step_time
         compression_type).

(** ** Decoding one frame *)

Definition light_state (lights : list byte) : list bool :=
  map (fun b => u8 b >? 127) lights.

Definition ramp_level (b : Z) : Z :=
  Z.min ((((if b >? 127 then 255 - b else b) / 13 + 1) / 2)) 3.

Definition ramp_state (lights : list byte) : list Z :=
  map (fun b => ramp_level (u8 b)) (firstn 14 lights).

Definition closure_level (b : Z) : Z := (b / 32 + 1) / 2.

Definition closure_state (closures : list byte) : list Z :=
  map (fun b => closure_level (u8 b)) closures.

(** ** The state carried from frame to frame *)

Record Prev : Type := mkPrev {
  prev_light : option (list bool);
  prev_ramp : option (list Z);
  prev_closure_1 : option (list Z);
  prev_closure_2 : option (list Z);
  count : Z
}.

Definition init_prev : Prev := mkPrev None None None None 0.

(** The four [if state != prev: prev = state; count += 1] statements. *)
Definition update_light (ls : list bool) (p : Prev) : Prev :=
  if differs Bool.eqb ls (prev_light p)
  then mkPrev (Some ls) (prev_ramp p) (prev_closure_1 p) (prev_closure_2 p)
         (count p + 1)
  else p.

Definition update_ramp (rs : list Z) (p : Prev) : Prev :=
  if differs Z.eqb rs (prev_ramp p)
  then mkPrev (prev_light p) (Some rs) (prev_closure_1 p) (prev_closure_2 p)
         (count p + 1)
  else p.

Definition update_closure_1 (cs : list Z) (p : Prev) : Prev :=
  if differs Z.eqb cs (prev_closure_1 p)
  then mkPrev (prev_light p) (prev_ramp p) (Some cs) (prev_closure_2 p)
         (count p + 1)
  else p.

Definition update_closure_2 (cs : list Z) (p : Prev) : Prev :=
  if differs Z.eqb cs (prev_closure_2 p)
  then mkPrev (prev_light p) (prev_ramp p) (prev_closure_1 p) (Some cs)
         (count p + 1)
  else p.

(** The part of the loop body after the reads. *)
Definition update (lights closures : list byte) (p : Prev) : Prev :=
  let ls := light_state lights in
  let rs := ramp_state lights in
  let cs := closure_state closures in
  let p := update_light ls p in
  let p := update_ramp rs p in
  let p := update_closure_1 (firstn 10 cs) p in
  update_closure_2 (skipn 10 cs) p.

(** The body of [for frame_i in range(frame_count)]. *)
Definition frame_body (p : Prev) : M Prev :=
  lights <- read 30 ;;
  closures <- read 16 ;;
  seek_cur 2 ;;;
  ret (update lights closures p).

(** [n] iterations of the loop. *)
Fixpoint frames_loop (n : nat) (p : Prev) : M Prev :=
  match n with
  | O => ret p
  | S n' => p' <- frame_body p ;; frames_loop n' p'
  end.

(** ** [validate] *)

Definition msg_format : message :=
  [Lit "Unknown file format, expected FSEQ v2.0"].
Definition msg_channels (channel_count : Z) : message :=
  [Lit "Expected 48 channels, got "; FmtInt channel_count].
Definition msg_compression : message :=
  [Lit "Expected file format to be V2 Uncompressed"].
Definition msg_duration (d : Q) : message :=
  [Lit "Expected total duration to be less than 5 minutes, got ";
   FmtTimedelta d].

Definition warning (major minor : Z) : list message :=
  [ [Lit EmptyString];
    [Lit "WARNING: FSEQ version is "; FmtInt major; Lit "."; FmtInt minor;
     Lit ". Only version 2.0 and 2.2 have been validated."];
    [Lit "If the car fails to read this file, download and older version of XLights at https://github.com/smeighan/xLights/releases"];
    [Lit "Please report this message at https://github.com/teslamotors/light-show/issues"];
    [Lit EmptyString] ].

Fixpoint print_all (msgs : list message) : M unit :=
  match msgs with
  | [] => ret tt
  | m :: ms => print m ;;; print_all ms
  end.

(** [a > b] on rationals. *)
Definition Qgtb (a b : Q) : bool := negb (Qle_bool a b).

Definition validate : M ValidationResults :=
  h <- read_header ;;
  (if negb (list_eqb Byte.eqb (h_magic h) PSEQ) || (h_start h <? 24)
      || (h_frame_count h <? 1) || (h_step_time h <? 15)
   then raise (ValidationError msg_format) else ret tt) ;;;
  (if negb (h_channel_count h =? 48)
   then raise (ValidationError (msg_channels (h_channel_count h)))
   else ret tt) ;;;
  (if negb (h_compression_type h =? 0)
   then raise (ValidationError msg_compression) else ret tt) ;;;
  let duration_s := true_div (h_frame_count h * h_step_time h) 1000 in
  (if Qgtb duration_s (inject_Z (5 * 60))
   then raise (ValidationError (msg_duration duration_s)) else ret tt) ;;;
  (if (negb (h_minor h =? 0) && negb (h_minor h =? 2))
      || negb (h_major h =? 2)
   then print_all (warning (h_major h) (h_minor h)) else ret tt) ;;;
  seek (h_start h) ;;;
  p <- frames_loop (Z.to_nat (h_frame_count h)) init_prev ;;
  ret (mkResults (h_frame_count h) (h_step_time h) duration_s
         (true_div (count p) MEMORY_LIMIT)).

(** ** Streams used as concrete inputs *)

(** A 24-byte header: magic, start = 24, version [major].[minor], 48
    channels, a 16-bit frame count [f1 f0], step time [step], no
    compression. *)
Definition header_bytes (minor major f0 f1 step : byte) : list byte :=
  [x50; x53; x45; x51; x18; x00; minor; major; x00; x00;
   x30; x00; x00; x00; f0; f1; x00; x00; step; x00;
   x00; x00; x00; x00].

(** Header declaring 10 frames of 20 ms, followed by only 5 all-zero frames. *)
Definition truncated_stream : list byte :=
  header_bytes x00 x02 x0a x00 x14 ++ repeat x00 (5 * 48).

(** Header declaring 876 frames of 15 ms; the frames alternate between
    all-zero and all-128 bytes, so that every group changes at every frame. *)
Definition busy_stream : list byte :=
  header_bytes x00 x02 x6c x03 x0f
    ++ concat (repeat (repeat x00 48 ++ repeat x80 48) 438).

(** Header declaring 20000 frames of 15 ms (duration exactly 300 s). *)
Definition boundary_header : list byte := header_bytes x00 x02 x20 x4e x0f.

(** Header declaring one frame of 15 ms, followed by one all-zero frame. *)
Definition one_frame_stream : list byte :=
  header_bytes x00 x02 x01 x00 x0f ++ repeat x00 48.

(** The same, with version 3.1 in the header. *)
Definition one_frame_stream_v31 : list byte :=
  header_bytes x01 x03 x01 x00 x0f ++ repeat x00 48.

(** A well-formed one-frame header, except that the magic is [b'XSEQ']. *)
Definition bad_magic_stream : list byte :=
  x58 :: tl (header_bytes x00 x02 x01 x00 x0f).

(** Four bytes that are not the magic, and nothing else. *)
Definition short_stream : list byte := [x41; x42; x43; x44].

(** What [validate] returns on [one_frame_stream] and on [busy_stream]. *)
Definition one_frame_result : ValidationResults :=
  mkResults 1 15 (true_div (1 * 15) 1000) (true_div 4 MEMORY_LIMIT).

Definition busy_result : ValidationResults :=
  mkResults 876 15 (true_div (876 * 15) 1000) (true_div 3504 MEMORY_LIMIT).

(** ** Predicates of the statements *)

(** The first raise of [validate] is passed. *)
Definition format_ok (h : Header) : Prop :=
  h_magic h = PSEQ /\ 24 <= h_start h /\ 1 <= h_frame_count h
  /\ 15 <= h_step_time h.

(** All four raises of [validate] are passed. *)
Definition header_ok (h : Header) : Prop :=
  format_ok h /\ h_channel_count h = 48 /\ h_compression_type h = 0
  /\ (true_div (h_frame_count h * h_step_time h) 1000 <= inject_Z 300)%Q.

(** Fewer than [frame_count * 48] bytes are available from [start] on. *)
Definition truncated (s : list byte) (h : Header) : Prop :=
  Z.of_nat (length s) < h_start h + h_frame_count h * 48.

(** The loop state after [k] iterations over stream [s], the frame data
    starting at [start]. *)
Definition prev_after (s : list byte) (start : Z) (k : nat) : Prev :=
  match fst (frames_loop k init_prev (mkWorld s (Z.to_nat start) [])) with
  | Returns p => p
  | Raises _ => init_prev
  end.

Definition count_after (s : list byte) (start : Z) (k : nat) : Z :=
  count (prev_after s start k).

(** The counter at the end of the loop. *)
Definition change_event_count (s : list byte) (h : Header) : Z :=
  count_after s (h_start h) (Z.to_nat (h_frame_count h)).

Definition b2z (b : bool) : Z := if b then 1 else 0.

(** The version pairs that print no warning. *)
Definition validated_version (major minor : Z) : Prop :=
  (major, minor) = (2, 0) \/ (major, minor) = (2, 2).

(** The ramp level in the words of the specification. *)
Definition ramp_level_spec (byte : Z) : Z :=
  let v := if 127 <? byte then 255 - byte else byte in
  Z.min (((v / 13) + 1) / 2) 3.

(** The closure level in the words of the specification. *)
Definition closure_level_spec (byte : Z) : Z := (byte / 32 + 1) / 2.

(** The header fields by their offsets in a stream of at least 21 bytes. *)
Definition header_of (s : list byte) : Header :=
  mkHeader (firstn 4 s)
    (le_uint (firstn 2 (skipn 4 s)))
    (u8 (nth 6 s x00))
    (u8 (nth 7 s x00))
    (le_uint (firstn 4 (skipn 10 s)))
    (le_uint (firstn 4 (skipn 14 s)))
    (u8 (nth 18 s x00))
    (u8 (nth 20 s x00)).

(** The text printed by a run that starts with standard output [out] is
    appended to [out], and nothing else of the run depends on [out]. *)
Definition output_parametric {A} (m : M A) : Prop :=
  forall d k, exists r k' o,
    forall out, m (mkWorld d k out) = (r, mkWorld d k' (out ++ o)).

(** The result of [validate] on a full header [h], the loop ending with
    counter [c]: the four raises in their order, then the result. *)
Definition outcome_of (h : Header) (c : Z) : outcome ValidationResults :=
  let d := true_div (h_frame_count h * h_step_time h) 1000 in
  if negb (list_eqb Byte.eqb (h_magic h) PSEQ) || (h_start h <? 24)
     || (h_frame_count h <? 1) || (h_step_time h <? 15)
  then Raises (ValidationError msg_format)
  else if negb (h_channel_count h =? 48)
  then Raises (ValidationError (msg_channels (h_channel_count h)))
  else if negb (h_compression_type h =? 0)
  then Raises (ValidationError msg_compression)
  else if Qgtb d (inject_Z (5 * 60))
  then Raises (ValidationError (msg_duration d))
  else Returns (mkResults (h_frame_count h) (h_step_time h) d
                  (true_div c MEMORY_LIMIT)).

(** ** The command line *)

(** The lines printed by the script: those of [validate], the message of a
    caught exception, and the two lines of the report, whose second formats
    a float with [:.2f]. *)
Inductive cli_fragment : Type :=
  | Plain (f : fragment)
  | FmtFixed2 (x : Q).

Definition cli_line : Type := list cli_fragment.

Definition plain (m : message) : cli_line := map Plain m.

(** How the script ends: [sys.exit(status)] or falling off the end (status
    0), or an exception that no handler catches. *)
Inductive termination : Type :=
  | Exit (status : Z)
  | Uncaught (e : Exception).

Definition found_line (results : ValidationResults) : cli_line :=
  plain [Lit "Found "; FmtInt (frame_count results);
         Lit " frames, step time of "; FmtInt (step_time results);
         Lit " ms for a total duration of ";
         FmtTimedelta (duration_s results); Lit "."].

Definition used_line (results : ValidationResults) : cli_line :=
  [Plain (Lit "Used "); FmtFixed2 (memory_usage results * inject_Z 100)%Q;
   Plain (Lit "% of the available memory")].

(** The body of [if __name__ == "__main__"], on a file of content [s]:
    the printed lines and the way the script ends. Only [ValidationError]
    is caught. *)
Definition main (s : list byte) : list cli_line * termination :=
  match validate (open s) with
  | (Returns results, w) =>
      let out := map plain (stdout w) ++ [found_line results;
                                          used_line results] in
      if Qgtb (memory_usage results) (inject_Z 1)
      then (out, Exit 1) else (out, Exit 0)
  | (Raises (ValidationError msg), w) =>
      (map plain (stdout w) ++ [plain msg], Exit 1)
  | (Raises struct_error, w) => (map plain (stdout w), Uncaught struct_error)
  end.

(** ** Complete frames *)

(** The loop body on a complete 48-byte frame [f]: 30 light bytes, 16
    closure bytes, 2 bytes skipped. *)
Definition decode_frame (p : Prev) (f : list byte) : Prev :=
  update (firstn 30 f) (firstn 16 (skipn 30 f)) p.

Definition fold_frames (frames : list (list byte)) (p : Prev) : Prev :=
  fold_left decode_frame frames p.

(** Two frames with the same three decoded vectors. *)
Definition same_state (f g : list byte) : Prop :=
  light_state (firstn 30 f) = light_state (firstn 30 g)
  /\ ramp_state (firstn 30 f) = ramp_state (firstn 30 g)
  /\ closure_state (firstn 16 (skipn 30 f))
     = closure_state (firstn 16 (skipn 30 g)).

(** ** More concrete streams *)

(** A one-frame header of version 3.1 with 47 channels and compression
    type 1. *)
Definition bad_channel_stream : list byte :=
  [x50; x53; x45; x51; x18; x00; x01; x03; x00; x00;
   x2f; x00; x00; x00; x01; x00; x00; x00; x0f; x00;
   x01; x00; x00; x00].

(** A header with 48 channels and compression type 1, declaring 2000 frames
    of 255 ms (510 s). *)
Definition compressed_stream : list byte :=
  [x50; x53; x45; x51; x18; x00; x00; x02; x00; x00;
   x30; x00; x00; x00; xd0; x07; x00; x00; xff; x00;
   x01; x00; x00; x00].

(** A header with the magic and 48 channels, but a step time of 14 ms. *)
Definition fast_step_stream : list byte :=
  header_bytes x00 x02 x01 x00 x0e.

(** Two frames that decode to the same vectors: all-zero bytes, and small
    values below every threshold with other reserved bytes. *)
Definition quiet_frame : list byte :=
  repeat x0c 14 ++ repeat x7f 16 ++ repeat x1f 16 ++ [xff; xff].

Definition static_stream : list byte :=
  header_bytes x00 x02 x03 x00 x14
    ++ concat [repeat x00 48; quiet_frame; repeat x00 48] ++ [xaa; xbb].

(** [one_frame_stream] with other bytes at offsets 8, 9, 19 and 21 to 23. *)
Definition one_frame_stream_gaps : list byte :=
  [x50; x53; x45; x51; x18; x00; x00; x02; xde; xad;
   x30; x00; x00; x00; x01; x00; x00; x00; x0f; xbe;
   x00; xef; xef; xef] ++ repeat x00 48.

(** The state retained after a complete frame: four non-empty vectors. *)
Definition full_state (p : Prev) : Prop :=
  exists l ls r rs c cs e es n,
    p = mkPrev (Some (l :: ls)) (Some (r :: rs)) (Some (c :: cs))
          (Some (e :: es)) n.

(** Header declaring 3 frames of 20 ms, followed by one all-zero frame. *)
Definition cut_stream : list byte :=
  header_bytes x00 x02 x03 x00 x14 ++ concat [repeat x00 48].

(** Header declaring 2 frames of 20 ms; the second frame differs from the
    all-zero first one in its last 6 closure bytes only, which are 255. *)
Definition half_change_frame : list byte :=
  repeat x00 30 ++ repeat x00 10 ++ repeat xff 6 ++ [x00; x00].

Definition half_change_stream : list byte :=
  header_bytes x00 x02 x02 x00 x14
    ++ concat [repeat x00 48] ++ half_change_frame ++ [].

(** * Properties *)

(** ** Lists *)

Lemma list_eqb_eq {A} (eqb : A -> A -> bool)
    (eqb_eq : forall x y, eqb x y = true <-> x = y) (l1 l2 : list A) :
  list_eqb eqb l1 l2 = true <-> l1 = l2.
Proof.
  revert l2; induction l1 as [|x l1 IH]; intros [|y l2]; simpl;
    try (split; [discriminate | congruence]).
  - tauto.
  - rewrite andb_true_iff, eqb_eq, IH. split.
    + intros [-> ->]; reflexivity.
    + intros E; injection E; auto.
Qed.

Lemma differs_false {A} (eqb : A -> A -> bool)
    (eqb_eq : forall x y, eqb x y = true <-> x = y) (l : list A) prev :
  differs eqb l prev = false <-> prev = Some l.
Proof.
  destruct prev as [p|]; simpl.
  - rewrite negb_false_iff, (list_eqb_eq eqb eqb_eq). split; congruence.
  - split; discriminate.
Qed.

Lemma byte_eqb_eq (x y : byte) : Byte.eqb x y = true <-> x = y.
Proof.
  split; [apply Byte.byte_dec_bl | apply Byte.byte_dec_lb].
Qed.

Lemma u8_range (b : byte) : 0 <= u8 b < 256.
Proof.
  unfold u8. pose proof (Byte.to_N_bounded b) as Hb. lia.
Qed.

(** ** The four comparisons of a frame *)

Lemma update_light_spec ls p :
  update_light ls p =
  mkPrev (Some ls) (prev_ramp p) (prev_closure_1 p) (prev_closure_2 p)
    (count p + b2z (differs Bool.eqb ls (prev_light p))).
Proof.
  unfold update_light.
  destruct (differs Bool.eqb ls (prev_light p)) eqn:E; simpl; [reflexivity|].
  apply (differs_false _ Bool.eqb_true_iff) in E.
  destruct p; simpl in *; subst; f_equal; lia.
Qed.

Lemma update_ramp_spec rs p :
  update_ramp rs p =
  mkPrev (prev_light p) (Some rs) (prev_closure_1 p) (prev_closure_2 p)
    (count p + b2z (differs Z.eqb rs (prev_ramp p))).
Proof.
  unfold update_ramp.
  destruct (differs Z.eqb rs (prev_ramp p)) eqn:E; simpl; [reflexivity|].
  apply (differs_false _ Z.eqb_eq) in E.
  destruct p; simpl in *; subst; f_equal; lia.
Qed.

Lemma update_closure_1_spec cs p :
  update_closure_1 cs p =
  mkPrev (prev_light p) (prev_ramp p) (Some cs) (prev_closure_2 p)
    (count p + b2z (differs Z.eqb cs (prev_closure_1 p))).
Proof.
  unfold update_closure_1.
  destruct (differs Z.eqb cs (prev_closure_1 p)) eqn:E; simpl; [reflexivity|].
  apply (differs_false _ Z.eqb_eq) in E.
  destruct p; simpl in *; subst; f_equal; lia.
Qed.

Lemma update_closure_2_spec cs p :
  update_closure_2 cs p =
  mkPrev (prev_light p) (prev_ramp p) (prev_closure_1 p) (Some cs)
    (count p + b2z (differs Z.eqb cs (prev_closure_2 p))).
Proof.
  unfold update_closure_2.
  destruct (differs Z.eqb cs (prev_closure_2 p)) eqn:E; simpl; [reflexivity|].
  apply (differs_false _ Z.eqb_eq) in E.
  destruct p; simpl in *; subst; f_equal; lia.
Qed.

Lemma update_spec lights closures p :
  update lights closures p =
  mkPrev (Some (light_state lights)) (Some (ramp_state lights))
    (Some (firstn 10 (closure_state closures)))
    (Some (skipn 10 (closure_state closures)))
    (count p
     + b2z (differs Bool.eqb (light_state lights) (prev_light p))
     + b2z (differs Z.eqb (ramp_state lights) (prev_ramp p))
     + b2z (differs Z.eqb (firstn 10 (closure_state closures))
              (prev_closure_1 p))
     + b2z (differs Z.eqb (skipn 10 (closure_state closures))
              (prev_closure_2 p))).
Proof.
  unfold update.
  rewrite update_closure_2_spec, update_closure_1_spec, update_ramp_spec,
    update_light_spec.
  reflexivity.
Qed.

Lemma b2z_range b : 0 <= b2z b <= 1.
Proof. destruct b; simpl; lia. Qed.

Lemma update_count_bounds lights closures p :
  count p <= count (update lights closures p) <= count p + 4.
Proof.
  rewrite update_spec; cbn [count].
  pose proof (b2z_range (differs Bool.eqb (light_state lights) (prev_light p))).
  pose proof (b2z_range (differs Z.eqb (ramp_state lights) (prev_ramp p))).
  pose proof (b2z_range (differs Z.eqb (firstn 10 (closure_state closures))
                           (prev_closure_1 p))).
  pose proof (b2z_range (differs Z.eqb (skipn 10 (closure_state closures))
                           (prev_closure_2 p))).
  lia.
Qed.

Lemma update_init lights closures :
  count (update lights closures init_prev) = 4.
Proof. rewrite update_spec; reflexivity. Qed.

(** ** The loop over the frames *)

Lemma frame_body_run p w :
  exists lights closures k,
    frame_body p w =
    (Returns (update lights closures p), mkWorld (data w) k (stdout w)).
Proof.
  unfold frame_body, bind, read, seek_cur, ret; cbn [data pos stdout].
  eexists _, _, _; reflexivity.
Qed.

(** The loop never raises, leaves the content and the output alone, and
    depends on the content and the position only. *)
Lemma frames_loop_run n : forall p d k,
  exists p' k', forall out,
    frames_loop n p (mkWorld d k out) = (Returns p', mkWorld d k' out).
Proof.
  induction n as [|n IH]; intros p d k.
  - exists p, k; reflexivity.
  - cbn [frames_loop]. unfold bind at 1.
    unfold frame_body, bind, read, seek_cur, ret; cbn [data pos stdout].
    match goal with
    | |- context [frames_loop n ?q (mkWorld d ?j _)] =>
        destruct (IH q d j) as (p' & k' & H)
    end.
    exists p', k'; intros out; apply H.
Qed.

Lemma bind_assoc {A B C} (m : M A) (f : A -> M B) (g : B -> M C) w :
  bind (bind m f) g w = bind m (fun a => bind (f a) g) w.
Proof.
  unfold bind. destruct (m w) as [[a|e] w']; reflexivity.
Qed.

Lemma frames_loop_snoc n : forall p w,
  frames_loop (S n) p w = bind (frames_loop n p) frame_body w.
Proof.
  induction n as [|n IH]; intros p w.
  - cbn [frames_loop]. unfold bind, ret.
    destruct (frame_body p w) as [[q|e] w']; reflexivity.
  - change (frames_loop (S (S n)) p w)
      with (bind (frame_body p) (frames_loop (S n)) w).
    change (frames_loop (S n) p) with (bind (frame_body p) (frames_loop n)).
    rewrite bind_assoc.
    unfold bind at 1 2.
    destruct (frame_body p w) as [[q|e] w']; [|reflexivity].
    apply IH.
Qed.

Lemma prev_after_run s start k out :
  exists j,
    frames_loop k init_prev (mkWorld s (Z.to_nat start) out)
    = (Returns (prev_after s start k), mkWorld s j out).
Proof.
  destruct (frames_loop_run k init_prev s (Z.to_nat start)) as (p' & j & H).
  exists j. unfold prev_after. rewrite (H []), (H out); reflexivity.
Qed.

Lemma prev_after_S s start k :
  exists lights closures,
    prev_after s start (S k) = update lights closures (prev_after s start k).
Proof.
  destruct (prev_after_run s start k []) as (j & Hk).
  destruct (frame_body_run (prev_after s start k) (mkWorld s j []))
    as (l & c & j' & Hb).
  exists l, c. unfold prev_after at 1.
  rewrite frames_loop_snoc. unfold bind. rewrite Hk, Hb. reflexivity.
Qed.

Lemma count_after_0 s start : count_after s start 0 = 0.
Proof. reflexivity. Qed.

Lemma count_after_1 s start : count_after s start 1 = 4.
Proof.
  unfold count_after. destruct (prev_after_S s start 0) as (l & c & ->).
  apply update_init.
Qed.

Lemma count_after_step s start k :
  count_after s start k <= count_after s start (S k)
  <= count_after s start k + 4.
Proof.
  unfold count_after. destruct (prev_after_S s start k) as (l & c & ->).
  apply update_count_bounds.
Qed.

Lemma count_after_bounds s start k :
  (1 <= k)%nat ->
  4 <= count_after s start k <= 4 * Z.of_nat k.
Proof.
  induction k as [|k IH]; [lia|]. intros _.
  destruct k as [|k].
  - rewrite count_after_1; lia.
  - pose proof (count_after_step s start (S k)). lia.
Qed.

(** ** Reading the header *)

Lemma read_header_short d out :
  (length d < 21)%nat ->
  fst (read_header (mkWorld d 0 out)) = Raises struct_error.
Proof.
  intros H.
  do 21 (destruct d as [|? d]; [reflexivity|]).
  simpl in H; lia.
Qed.

Lemma read_header_long d out :
  (21 <= length d)%nat ->
  read_header (mkWorld d 0 out) = (Returns (header_of d), mkWorld d 21 out).
Proof.
  intros H.
  do 21 (destruct d as [|? d]; [simpl in H; lia|]).
  reflexivity.
Qed.

Lemma read_header_inv s out h w1 :
  read_header (mkWorld s 0 out) = (Returns h, w1) ->
  (21 <= length s)%nat /\ h = header_of s /\ w1 = mkWorld s 21 out.
Proof.
  intros H.
  destruct (Nat.lt_ge_cases (length s) 21) as [Hs|Hs].
  - apply (read_header_short s out) in Hs. rewrite H in Hs. discriminate.
  - rewrite (read_header_long s out Hs) in H. injection H as <- <-. auto.
Qed.

(** ** The checks of the header *)

Lemma format_check_false h :
  format_ok h ->
  negb (list_eqb Byte.eqb (h_magic h) PSEQ) || (h_start h <? 24)
    || (h_frame_count h <? 1) || (h_step_time h <? 15) = false.
Proof.
  intros (Hm & Hs & Hf & Ht).
  apply (list_eqb_eq _ byte_eqb_eq) in Hm. rewrite Hm.
  repeat rewrite orb_false_iff. repeat split; try apply Z.ltb_ge; auto.
Qed.

Lemma format_check_true h :
  ~ format_ok h ->
  negb (list_eqb Byte.eqb (h_magic h) PSEQ) || (h_start h <? 24)
    || (h_frame_count h <? 1) || (h_step_time h <? 15) = true.
Proof.
  intros Hn. apply not_false_iff_true. intros E. apply Hn.
  repeat rewrite orb_false_iff in E.
  destruct E as (((Hm & Hs) & Hf) & Ht).
  rewrite negb_false_iff in Hm. apply (list_eqb_eq _ byte_eqb_eq) in Hm.
  apply Z.ltb_ge in Hs, Hf, Ht. repeat split; assumption.
Qed.

Lemma duration_check n :
  Qgtb (true_div n 1000) (inject_Z (5 * 60)) = true
  <-> (inject_Z 300 < true_div n 1000)%Q.
Proof.
  unfold Qgtb. rewrite negb_true_iff, <- not_true_iff_false, Qle_bool_iff.
  change (5 * 60) with 300. split.
  - apply Qnot_le_lt.
  - apply Qlt_not_le.
Qed.

Lemma duration_lt n : (inject_Z 300 < true_div n 1000)%Q <-> 300000 < n.
Proof.
  unfold true_div, Qlt, Qdiv, Qmult, Qinv; cbn. lia.
Qed.

Lemma duration_le n : (true_div n 1000 <= inject_Z 300)%Q <-> n <= 300000.
Proof.
  unfold true_div, Qle, Qdiv, Qmult, Qinv; cbn. lia.
Qed.

(** The source compares the binary64 quotient, the model the exact one.
    The two comparisons agree for every rounding that is exact at 300 and
    has a relative error of at most [2^-53], as binary64 division has: a
    quotient [n / 1000] other than 300 is at least [1 / 1000] away from it. *)
Section Rounding.

Variable rnd : Q -> Q.
Hypothesis rnd_compat : forall x y, (x == y)%Q -> (rnd x == rnd y)%Q.
Hypothesis rnd_error :
  forall x, (0 <= x)%Q -> (Qabs (rnd x - x) <= x * (1 # 2 ^ 53))%Q.
Hypothesis rnd_300 : (rnd (inject_Z 300) == inject_Z 300)%Q.

Lemma rounded_duration_check n :
  0 <= n ->
  (inject_Z 300 < rnd (true_div n 1000))%Q
  <-> (inject_Z 300 < true_div n 1000)%Q.
Proof.
  intros Hn. rewrite duration_lt.
  set (x := true_div n 1000).
  assert (Hx : (x * inject_Z 1000 == inject_Z n)%Q).
  { subst x. unfold true_div. field. }
  assert (Hx0 : (0 <= x)%Q).
  { rewrite Zle_Qle in Hn. change (inject_Z 0) with 0%Q in Hn.
    change (inject_Z 1000) with (1000#1)%Q in Hx. lra. }
  pose proof (rnd_error x Hx0) as He.
  apply Qabs_Qle_condition in He. destruct He as [He1 He2].
  change (inject_Z 1000) with (1000#1)%Q in Hx.
  change (inject_Z 300) with (300#1)%Q in *.
  change (2 ^ 53)%positive with 9007199254740992%positive in *.
  split.
  - intros H. destruct (Z.lt_ge_cases 300000 n) as [G|G]; [exact G|].
    exfalso. destruct (Z.eq_dec n 300000) as [->|Hne].
    + change (inject_Z 300000) with (300000#1)%Q in Hx.
      assert (E : (x == 300#1)%Q) by lra.
      apply rnd_compat in E. rewrite E, rnd_300 in H.
      revert H. apply Qlt_irrefl.
    + assert (G' : n <= 299999) by lia.
      rewrite Zle_Qle in G'. change (inject_Z 299999) with (299999#1)%Q in G'.
      lra.
  - intros G. assert (G' : 300001 <= n) by lia.
    rewrite Zle_Qle in G'. change (inject_Z 300001) with (300001#1)%Q in G'.
    lra.
Qed.

End Rounding.

Lemma print_all_run msgs : forall w,
  print_all msgs w = (Returns tt, mkWorld (data w) (pos w) (stdout w ++ msgs)).
Proof.
  induction msgs as [|m ms IH]; intros [d k out]; cbn [print_all].
  - unfold ret; cbn. rewrite app_nil_r. reflexivity.
  - unfold bind, print; cbn [data pos stdout]. rewrite IH; cbn [data pos stdout].
    rewrite <- app_assoc. reflexivity.
Qed.

Lemma version_check_false major minor :
  (negb (minor =? 0) && negb (minor =? 2)) || negb (major =? 2) = false
  <-> validated_version major minor.
Proof.
  unfold validated_version.
  destruct (Z.eqb_spec minor 0), (Z.eqb_spec minor 2), (Z.eqb_spec major 2);
    subst; cbn; split; intros H; try discriminate; auto;
    destruct H as [H|H]; injection H; intros; lia.
Qed.

(** ** The outcomes of [validate] *)

Section Outcomes.

Variables (w w1 : World) (h : Header).
Hypothesis Hread : read_header w = (Returns h, w1).

Let d := true_div (h_frame_count h * h_step_time h) 1000.

Lemma validate_format_error :
  ~ format_ok h ->
  validate w = (Raises (ValidationError msg_format), w1).
Proof.
  intros Hn. unfold validate. unfold bind at 1. rewrite Hread.
  unfold bind at 1. rewrite (format_check_true h Hn). reflexivity.
Qed.

Lemma validate_channel_error :
  format_ok h -> h_channel_count h <> 48 ->
  validate w
  = (Raises (ValidationError (msg_channels (h_channel_count h))), w1).
Proof.
  intros Hf Hc. unfold validate. unfold bind at 1. rewrite Hread.
  unfold bind at 1. rewrite (format_check_false h Hf). cbn [ret].
  unfold bind at 1. apply Z.eqb_neq in Hc. rewrite Hc. reflexivity.
Qed.

Lemma validate_compression_error :
  format_ok h -> h_channel_count h = 48 -> h_compression_type h <> 0 ->
  validate w = (Raises (ValidationError msg_compression), w1).
Proof.
  intros Hf Hc Hz. unfold validate. unfold bind at 1. rewrite Hread.
  unfold bind at 1. rewrite (format_check_false h Hf). cbn [ret].
  unfold bind at 1. rewrite Hc. cbn [Z.eqb Pos.eqb negb ret].
  unfold bind at 1. apply Z.eqb_neq in Hz. rewrite Hz. reflexivity.
Qed.

Lemma validate_duration_error :
  format_ok h -> h_channel_count h = 48 -> h_compression_type h = 0 ->
  (inject_Z 300 < d)%Q ->
  validate w = (Raises (ValidationError (msg_duration d)), w1).
Proof.
  intros Hf Hc Hz Hd. unfold validate. unfold bind at 1. rewrite Hread.
  unfold bind at 1. rewrite (format_check_false h Hf). cbn [ret].
  unfold bind at 1. rewrite Hc. cbn [Z.eqb Pos.eqb negb ret].
  unfold bind at 1. rewrite Hz. cbn [Z.eqb negb ret].
  cbv zeta. unfold bind at 1.
  apply duration_check in Hd. rewrite Hd. reflexivity.
Qed.

End Outcomes.

Lemma validate_success s out h :
  read_header (mkWorld s 0 out) = (Returns h, mkWorld s 21 out) ->
  header_ok h ->
  exists j,
    validate (mkWorld s 0 out)
    = (Returns
         (mkResults (h_frame_count h) (h_step_time h)
            (true_div (h_frame_count h * h_step_time h) 1000)
            (true_div (change_event_count s h) MEMORY_LIMIT)),
       mkWorld s j
         (out ++ if (negb (h_minor h =? 0) && negb (h_minor h =? 2))
                    || negb (h_major h =? 2)
                 then warning (h_major h) (h_minor h) else [])).
Proof.
  intros Hread (Hf & Hc & Hz & Hd).
  set (out' := out ++ _).
  destruct (prev_after_run s (h_start h) (Z.to_nat (h_frame_count h)) out')
    as (j & Hloop).
  exists j.
  unfold validate. unfold bind at 1. rewrite Hread.
  unfold bind at 1. rewrite (format_check_false h Hf). cbn [ret].
  unfold bind at 1. rewrite Hc. cbn [Z.eqb Pos.eqb negb ret].
  unfold bind at 1. rewrite Hz. cbn [Z.eqb negb ret].
  cbv zeta. unfold bind at 1.
  replace (Qgtb _ _) with false.
  2:{ symmetry. apply not_true_iff_false. rewrite duration_check.
      apply Qle_not_lt, Hd. }
  cbn [ret]. unfold bind at 1.
  assert (Hw : (if (negb (h_minor h =? 0) && negb (h_minor h =? 2))
                   || negb (h_major h =? 2)
                then print_all (warning (h_major h) (h_minor h))
                else ret tt) (mkWorld s 21 out)
               = (Returns tt, mkWorld s 21 out')).
  { subst out'.
    destruct ((negb (h_minor h =? 0) && negb (h_minor h =? 2))
              || negb (h_major h =? 2)).
    - apply print_all_run.
    - unfold ret. rewrite app_nil_r. reflexivity. }
  rewrite Hw. unfold bind at 1. unfold seek at 1. cbn [data stdout].
  unfold bind at 1. rewrite Hloop. reflexivity.
Qed.

Lemma validate_header_error w e w1 :
  read_header w = (Raises e, w1) -> validate w = (Raises e, w1).
Proof.
  intros H. unfold validate. unfold bind at 1. rewrite H. reflexivity.
Qed.

Lemma format_ok_dec h : {format_ok h} + {~ format_ok h}.
Proof.
  destruct (negb (list_eqb Byte.eqb (h_magic h) PSEQ) || (h_start h <? 24)
            || (h_frame_count h <? 1) || (h_step_time h <? 15)) eqn:E.
  - right. intros Hf. rewrite (format_check_false h Hf) in E. discriminate.
  - left. repeat rewrite orb_false_iff in E.
    destruct E as (((Hm & Hs) & Hf) & Ht).
    rewrite negb_false_iff in Hm. apply (list_eqb_eq _ byte_eqb_eq) in Hm.
    apply Z.ltb_ge in Hs, Hf, Ht. repeat split; assumption.
Qed.

(** A run that returns has read a full header that passes every check, and
    its result is built from that header and the counter of the loop. *)
Lemma validate_inv s out r w' :
  validate (mkWorld s 0 out) = (Returns r, w') ->
  (21 <= length s)%nat /\ header_ok (header_of s)
  /\ r = mkResults (h_frame_count (header_of s)) (h_step_time (header_of s))
           (true_div (h_frame_count (header_of s) * h_step_time (header_of s))
              1000)
           (true_div (change_event_count s (header_of s)) MEMORY_LIMIT).
Proof.
  intros H.
  destruct (Nat.lt_ge_cases (length s) 21) as [Hs|Hs].
  { pose proof (read_header_short s out Hs) as E.
    destruct (read_header (mkWorld s 0 out)) as [o w1] eqn:Hr.
    cbn in E; subst o. rewrite (validate_header_error _ _ _ Hr) in H.
    discriminate. }
  pose proof (read_header_long s out Hs) as Hr.
  set (h := header_of s) in *.
  destruct (format_ok_dec h) as [Hf|Hf].
  2:{ rewrite (validate_format_error _ _ _ Hr Hf) in H. discriminate. }
  destruct (Z.eq_dec (h_channel_count h) 48) as [Hc|Hc].
  2:{ rewrite (validate_channel_error _ _ _ Hr Hf Hc) in H. discriminate. }
  destruct (Z.eq_dec (h_compression_type h) 0) as [Hz|Hz].
  2:{ rewrite (validate_compression_error _ _ _ Hr Hf Hc Hz) in H.
      discriminate. }
  destruct (Qlt_le_dec (inject_Z 300)
              (true_div (h_frame_count h * h_step_time h) 1000)) as [Hd|Hd].
  { rewrite (validate_duration_error _ _ _ Hr Hf Hc Hz Hd) in H.
    discriminate. }
  assert (Hok : header_ok h) by (repeat split; try apply Hf; assumption).
  destruct (validate_success s out h Hr Hok) as (j & E).
  rewrite E in H. injection H as <- _. auto.
Qed.

(** On a stream with a full header, [validate] is [outcome_of] at the
    decoded header and the counter of the loop. *)
Lemma validate_outcome s out :
  (21 <= length s)%nat ->
  fst (validate (mkWorld s 0 out))
  = outcome_of (header_of s) (change_event_count s (header_of s)).
Proof.
  intros Hs. pose proof (read_header_long s out Hs) as Hr.
  set (h := header_of s) in *. unfold outcome_of.
  destruct (format_ok_dec h) as [Hf|Hf].
  2:{ rewrite (validate_format_error _ _ _ Hr Hf), (format_check_true h Hf).
      reflexivity. }
  rewrite (format_check_false h Hf).
  destruct (Z.eqb_spec (h_channel_count h) 48) as [Hc|Hc].
  2:{ rewrite (validate_channel_error _ _ _ Hr Hf Hc). reflexivity. }
  destruct (Z.eqb_spec (h_compression_type h) 0) as [Hz|Hz].
  2:{ rewrite (validate_compression_error _ _ _ Hr Hf Hc Hz). reflexivity. }
  cbn [negb]. cbv zeta.
  destruct (Qgtb (true_div (h_frame_count h * h_step_time h) 1000)
              (inject_Z (5 * 60))) eqn:E.
  - apply duration_check in E.
    rewrite (validate_duration_error _ _ _ Hr Hf Hc Hz E). reflexivity.
  - assert (Hok : header_ok h).
    { repeat split; try apply Hf; try assumption.
      apply Qnot_lt_le. rewrite <- duration_check, E. discriminate. }
    destruct (validate_success s out h Hr Hok) as (j & ->). reflexivity.
Qed.

(** ** The loop reads the stream from the data start on *)

Lemma frames_loop_suffix s1 s2 n : forall p k out,
  skipn k s1 = skipn k s2 ->
  fst (frames_loop n p (mkWorld s1 k out))
  = fst (frames_loop n p (mkWorld s2 k out)).
Proof.
  induction n as [|n IH]; intros p k out Hk; [reflexivity|].
  cbn [frames_loop]. unfold bind at 1 2.
  unfold frame_body, bind, read, seek_cur, ret; cbn [data pos stdout].
  rewrite <- Hk.
  assert (Hk' : forall m, skipn (k + m) s1 = skipn (k + m) s2).
  { intros m. rewrite (Nat.add_comm k m), <- !skipn_skipn, Hk. reflexivity. }
  rewrite <- Hk'. apply IH.
  rewrite <- !Nat.add_assoc. apply Hk'.
Qed.

Lemma prev_after_suffix s1 s2 start k :
  skipn (Z.to_nat start) s1 = skipn (Z.to_nat start) s2 ->
  prev_after s1 start k = prev_after s2 start k.
Proof.
  intros H. unfold prev_after.
  rewrite (frames_loop_suffix s1 s2 k init_prev _ [] H). reflexivity.
Qed.

(** ** Standard output is only appended to *)

Lemma param_pure {A} (o : outcome A) : output_parametric (lift o).
Proof.
  intros d k. exists o, k, []. intros out. unfold lift.
  rewrite app_nil_r. reflexivity.
Qed.

Lemma param_ret {A} (a : A) : output_parametric (ret a).
Proof. exact (param_pure (Returns a)). Qed.

Lemma param_raise {A} e : output_parametric (@raise A e).
Proof. exact (param_pure (Raises e)). Qed.

Lemma param_read n : output_parametric (read n).
Proof.
  intros d k. eexists _, _, []. intros out. unfold read; cbn [data pos stdout].
  rewrite app_nil_r. reflexivity.
Qed.

Lemma param_seek z : output_parametric (seek z).
Proof.
  intros d k. eexists _, _, []. intros out. unfold seek; cbn [data pos stdout].
  rewrite app_nil_r. reflexivity.
Qed.

Lemma param_seek_cur n : output_parametric (seek_cur n).
Proof.
  intros d k. eexists _, _, []. intros out.
  unfold seek_cur; cbn [data pos stdout].
  rewrite app_nil_r. reflexivity.
Qed.

Lemma param_print msg : output_parametric (print msg).
Proof.
  intros d k. exists (Returns tt), k, [msg]. intros out. reflexivity.
Qed.

Lemma param_bind {A B} (m : M A) (f : A -> M B) :
  output_parametric m -> (forall a, output_parametric (f a)) ->
  output_parametric (bind m f).
Proof.
  intros Hm Hf d k. destruct (Hm d k) as ([a|e] & k' & o & H).
  - destruct (Hf a d k') as (r2 & k2 & o2 & H2).
    exists r2, k2, (o ++ o2). intros out. unfold bind.
    rewrite H, H2, app_assoc. reflexivity.
  - exists (Raises e), k', o. intros out. unfold bind. rewrite H. reflexivity.
Qed.

Lemma param_if {A} (c : bool) (m1 m2 : M A) :
  output_parametric m1 -> output_parametric m2 ->
  output_parametric (if c then m1 else m2).
Proof. destruct c; auto. Qed.

Lemma param_print_all msgs : output_parametric (print_all msgs).
Proof.
  induction msgs as [|m ms IH]; cbn [print_all].
  - apply param_ret.
  - apply param_bind; [apply param_print | intros _; apply IH].
Qed.

Lemma param_frame_body p : output_parametric (frame_body p).
Proof.
  unfold frame_body.
  apply param_bind; [apply param_read | intros lights].
  apply param_bind; [apply param_read | intros closures].
  apply param_bind; [apply param_seek_cur | intros _].
  apply param_ret.
Qed.

Lemma param_frames_loop n : forall p, output_parametric (frames_loop n p).
Proof.
  induction n as [|n IH]; intros p; cbn [frames_loop].
  - apply param_ret.
  - apply param_bind; [apply param_frame_body | apply IH].
Qed.

Lemma param_read_header : output_parametric read_header.
Proof.
  unfold read_header.
  apply param_bind; [apply param_read | intros magic].
  apply param_bind; [apply param_read | intros bs].
  apply param_bind; [apply param_pure | intros [[start minor] major]].
  apply param_bind; [apply param_seek | intros _].
  apply param_bind; [apply param_read | intros bs'].
  apply param_bind; [apply param_pure | intros [[channels frames] step]].
  apply param_bind; [apply param_seek | intros _].
  apply param_bind; [apply param_read | intros bs''].
  apply param_bind; [apply param_pure | intros compression].
  apply param_ret.
Qed.

Lemma param_validate : output_parametric validate.
Proof.
  unfold validate.
  apply param_bind; [apply param_read_header | intros h].
  do 4 (apply param_bind;
        [apply param_if; [apply param_raise | apply param_ret] | intros _]).
  apply param_bind;
    [apply param_if; [apply param_print_all | apply param_ret] | intros _].
  apply param_bind; [apply param_seek | intros _].
  apply param_bind; [apply param_frames_loop | intros p].
  apply param_ret.
Qed.

Lemma validate_returns s r :
  fst (validate (open s)) = Returns r ->
  (21 <= length s)%nat /\ header_ok (header_of s)
  /\ r = mkResults (h_frame_count (header_of s)) (h_step_time (header_of s))
           (true_div (h_frame_count (header_of s) * h_step_time (header_of s))
              1000)
           (true_div (change_event_count s (header_of s)) MEMORY_LIMIT).
Proof.
  intros H. destruct (validate (open s)) as [o w'] eqn:E.
  cbn in H; subst o. exact (validate_inv s [] r w' E).
Qed.

Lemma count_after_nonneg s start k : 0 <= count_after s start k.
Proof.
  induction k as [|k IH].
  - rewrite count_after_0; lia.
  - pose proof (count_after_step s start k); lia.
Qed.

Lemma validate_short s out :
  (length s < 21)%nat ->
  fst (validate (mkWorld s 0 out)) = Raises struct_error.
Proof.
  intros Hs. pose proof (read_header_short s out Hs) as E.
  destruct (read_header (mkWorld s 0 out)) as [o w1] eqn:Hr.
  cbn in E; subst o. rewrite (validate_header_error _ _ _ Hr). reflexivity.
Qed.

(** Below the least data start the counter plays no part in the outcome. *)
Lemma outcome_of_small_start h c c' :
  h_start h < 24 -> outcome_of h c = outcome_of h c'.
Proof.
  intros H. unfold outcome_of. apply Z.ltb_lt in H. rewrite H.
  rewrite orb_true_r. reflexivity.
Qed.

(** * The claims *)

(** [header_ok] at a concrete header. *)
Ltac concrete_header_ok :=
  split;
  [ split; [reflexivity | repeat (split; [vm_compute; discriminate|]);
            vm_compute; discriminate]
  | split; [reflexivity | split; [reflexivity |
      apply duration_le; vm_compute; discriminate]] ].

(** ** Quantization *)

(** C2, as stated, fails at byte 127: the formula gives
    [min((127 // 13 + 1) // 2, 3) = min(10 // 2, 3) = 3], not 2. *)
Lemma C2_ramp_level_127 :
  ramp_level 127 = 3 /\ ramp_level 127 <> 2 /\ ramp_state [x7f] = [3].
Proof.
  split; [reflexivity|]. split; [discriminate | reflexivity].
Qed.

(** C2, amended: the ramp level of the source is the formula of the
    specification, [min(((v // 13) + 1) // 2, 3)] with [v = 255 - byte] when
    [byte > 127] and [v = byte] otherwise; it is applied to each of the first
    14 light bytes; it maps byte 0 to level 0, byte 255 to level 0 and byte
    127 to level 3, and every byte to a level in 0..3. *)
Theorem C2_ramp_quantization :
  (forall byte, ramp_level byte = ramp_level_spec byte)
  /\ (forall lights,
        ramp_state lights
        = map (fun b => ramp_level_spec (u8 b)) (firstn 14 lights))
  /\ ramp_level 0 = 0 /\ ramp_level 255 = 0 /\ ramp_level 127 = 3
  /\ (forall b : byte, 0 <= ramp_level (u8 b) <= 3).
Proof.
  assert (E : forall byte, ramp_level byte = ramp_level_spec byte).
  { intros byte. unfold ramp_level, ramp_level_spec.
    rewrite Z.gtb_ltb. reflexivity. }
  split; [exact E|]. split.
  { intros lights. unfold ramp_state. apply map_ext. intros b. apply E. }
  split; [reflexivity|]. split; [reflexivity|]. split; [reflexivity|].
  intros b. unfold ramp_level. pose proof (u8_range b) as Hb.
  split; [|apply Z.le_min_r].
  apply Z.min_glb; [|lia].
  destruct (u8 b >? 127) eqn:G.
  - apply Z.gtb_lt in G.
    apply Z.div_pos; [|lia].
    pose proof (Z.div_pos (255 - u8 b) 13). lia.
  - apply Z.div_pos; [|lia].
    pose proof (Z.div_pos (u8 b) 13). lia.
Qed.

(** ** Truncated frame data *)

(** C1, as stated, fails: a header declaring 10 frames followed by only 5
    complete frames is not rejected; [validate] returns a result whose
    counter (8) comes from the short reads. *)
Lemma C1_truncated_stream_returns :
  truncated truncated_stream (header_of truncated_stream)
  /\ h_frame_count (header_of truncated_stream) = 10
  /\ length truncated_stream = (24 + 5 * 48)%nat
  /\ fst (validate (open truncated_stream))
     = Returns (mkResults 10 20 (true_div 200 1000) (true_div 8 MEMORY_LIMIT)).
Proof.
  split; [vm_compute; reflexivity|].
  split; [reflexivity|]. split; [reflexivity|].
  vm_compute; reflexivity.
Qed.

(** C1, amended: for every stream whose header passes all the checks and
    whose frame data region is truncated, [validate] does not fail: it
    returns a result whose memory usage is the counter of the loop over the
    short data, divided by 3500. *)
Theorem C1_truncated_not_detected (s : list byte) (h : Header) (w1 : World) :
  read_header (open s) = (Returns h, w1) ->
  header_ok h ->
  truncated s h ->
  fst (validate (open s))
  = Returns (mkResults (h_frame_count h) (h_step_time h)
               (true_div (h_frame_count h * h_step_time h) 1000)
               (true_div (change_event_count s h) MEMORY_LIMIT)).
Proof.
  intros Hr Hok _.
  destruct (read_header_inv s [] h w1 Hr) as (_ & _ & ->).
  destruct (validate_success s [] h Hr Hok) as (j & E).
  unfold open. rewrite E. reflexivity.
Qed.

Lemma C1_truncated_not_detected_witness :
  fst (validate (open truncated_stream))
  = Returns (mkResults 10 20 (true_div (10 * 20) 1000)
               (true_div (change_event_count truncated_stream
                            (header_of truncated_stream)) MEMORY_LIMIT)).
Proof.
  apply (C1_truncated_not_detected truncated_stream
           (header_of truncated_stream) (mkWorld truncated_stream 21 [])).
  - reflexivity.
  - concrete_header_ok.
  - vm_compute. reflexivity.
Defined.

(** ** The magic number *)

(** C4, as stated, fails on a stream too short for the header: the fields
    are unpacked before the magic is compared, and [struct.unpack] raises
    [struct.error] on the short buffer. *)
Lemma C4_short_stream_struct_error :
  firstn 4 short_stream <> PSEQ
  /\ fst (validate (open short_stream)) = Raises struct_error.
Proof.
  split; [discriminate | reflexivity].
Qed.

(** C4, amended: for every stream of at least 21 bytes whose first 4 bytes
    are not [b'PSEQ'], [validate] raises [ValidationError] with the message
    "Unknown file format, expected FSEQ v2.0", whatever the rest of the
    stream. *)
Theorem C4_bad_magic (s : list byte) :
  (21 <= length s)%nat ->
  firstn 4 s <> PSEQ ->
  fst (validate (open s)) = Raises (ValidationError msg_format).
Proof.
  intros Hs Hm. unfold open.
  rewrite (validate_format_error _ _ _ (read_header_long s [] Hs));
    [reflexivity|].
  intros (Hm' & _). apply Hm. exact Hm'.
Qed.

Lemma C4_bad_magic_witness :
  fst (validate (open bad_magic_stream)) = Raises (ValidationError msg_format).
Proof.
  apply (C4_bad_magic bad_magic_stream).
  - vm_compute. lia.
  - discriminate.
Defined.

(** ** The duration *)

(** C5: for every header that passes the format, channel-count and
    compression checks, the duration is [frame_count * step_time / 1000];
    [validate] raises the duration error if and only if the duration exceeds
    300, and otherwise returns a result that carries this duration; with
    20000 frames of 15 ms the duration is exactly 300 and [validate]
    returns. *)
Theorem C5_duration_check (s : list byte) (h : Header) (w1 : World) :
  read_header (open s) = (Returns h, w1) ->
  format_ok h -> h_channel_count h = 48 -> h_compression_type h = 0 ->
  let d := true_div (h_frame_count h * h_step_time h) 1000 in
  (d == inject_Z (h_frame_count h) * inject_Z (h_step_time h)
        / inject_Z 1000)%Q
  /\ (fst (validate (open s)) = Raises (ValidationError (msg_duration d))
      <-> (inject_Z 300 < d)%Q)
  /\ (~ (inject_Z 300 < d)%Q ->
      exists r, fst (validate (open s)) = Returns r
                /\ frame_count r = h_frame_count h
                /\ step_time r = h_step_time h
                /\ duration_s r = d)
  /\ (h_frame_count h = 20000 -> h_step_time h = 15 ->
      (d == inject_Z 300)%Q
      /\ exists r, fst (validate (open s)) = Returns r /\ duration_s r = d).
Proof.
  intros Hr Hf Hc Hz d.
  destruct (read_header_inv s [] h w1 Hr) as (_ & _ & ->).
  assert (Hsucc : ~ (inject_Z 300 < d)%Q ->
            exists r, fst (validate (open s)) = Returns r
                      /\ frame_count r = h_frame_count h
                      /\ step_time r = h_step_time h
                      /\ duration_s r = d).
  { intros Hd. apply Qnot_lt_le in Hd.
    assert (Hok : header_ok h) by (repeat split; try apply Hf; assumption).
    destruct (validate_success s [] h Hr Hok) as (j & E).
    eexists. unfold open. rewrite E. repeat split; reflexivity. }
  split.
  { subst d. unfold true_div. rewrite inject_Z_mult. reflexivity. }
  split.
  { split.
    - intros E. destruct (Qlt_le_dec (inject_Z 300) d) as [Hd|Hd]; [exact Hd|].
      apply Qle_not_lt in Hd. destruct (Hsucc Hd) as (r & E' & _).
      rewrite E' in E. discriminate.
    - intros Hd.
      rewrite (validate_duration_error _ _ _ Hr Hf Hc Hz Hd). reflexivity. }
  split; [exact Hsucc|].
  intros HF HT.
  assert (Hd : (d == inject_Z 300)%Q).
  { subst d. rewrite HF, HT. reflexivity. }
  split; [exact Hd|].
  destruct Hsucc as (r & E & _ & _ & Ed).
  { rewrite Hd. apply Qlt_irrefl. }
  exists r; auto.
Qed.

Lemma C5_duration_check_witness :
  (true_div (20000 * 15) 1000 == inject_Z 300)%Q
  /\ exists r, fst (validate (open boundary_header)) = Returns r
               /\ duration_s r = true_div (20000 * 15) 1000.
Proof.
  pose proof (C5_duration_check boundary_header (header_of boundary_header)
                (mkWorld boundary_header 21 [])) as H.
  apply H; try reflexivity.
  split; [reflexivity |
          repeat (split; [vm_compute; discriminate|]); vm_compute; discriminate].
Defined.

(** ** The counter *)

(** C6: for every input on which [validate] returns with [frame_count = 1],
    the counter is exactly 4 (so the memory usage is 4 / 3500): against the
    empty previous state, each of the four groups counts as changed, whatever
    the bytes of the frame. *)
Theorem C6_first_frame (s : list byte) (r : ValidationResults) :
  fst (validate (open s)) = Returns r ->
  frame_count r = 1 ->
  change_event_count s (header_of s) = 4
  /\ memory_usage r = true_div 4 MEMORY_LIMIT
  /\ (forall lights closures,
        let p := update lights closures init_prev in
        count p = 4
        /\ prev_light p = Some (light_state lights)
        /\ prev_ramp p = Some (ramp_state lights)
        /\ prev_closure_1 p = Some (firstn 10 (closure_state closures))
        /\ prev_closure_2 p = Some (skipn 10 (closure_state closures))).
Proof.
  intros H HF. destruct (validate_returns s r H) as (_ & _ & ->).
  cbn [frame_count] in HF.
  assert (Hc : change_event_count s (header_of s) = 4).
  { unfold change_event_count. rewrite HF. apply count_after_1. }
  split; [exact Hc|]. split; [cbn [memory_usage]; rewrite Hc; reflexivity|].
  intros lights closures p. subst p. rewrite update_spec.
  repeat split; reflexivity.
Qed.

Lemma C6_first_frame_witness :
  change_event_count one_frame_stream (header_of one_frame_stream) = 4
  /\ memory_usage one_frame_result = true_div 4 MEMORY_LIMIT.
Proof.
  pose proof (C6_first_frame one_frame_stream one_frame_result) as H.
  destruct H as (H1 & H2 & _).
  - vm_compute. reflexivity.
  - reflexivity.
  - split; [exact H1 | exact H2].
Defined.

(** C7: on success the memory usage is the counter divided by the constant
    3500, with no clamp: some input has a ratio above 1 and [validate]
    still returns it. *)
Theorem C7_memory_usage_ratio :
  MEMORY_LIMIT = 3500
  /\ (forall s r,
        fst (validate (open s)) = Returns r ->
        memory_usage r
        = true_div (change_event_count s (header_of s)) MEMORY_LIMIT
        /\ (memory_usage r
            == change_event_count s (header_of s) # 3500)%Q)
  /\ (exists s r,
        fst (validate (open s)) = Returns r /\ (1 < memory_usage r)%Q).
Proof.
  split; [reflexivity|]. split.
  - intros s r H. destruct (validate_returns s r H) as (_ & _ & ->).
    cbn [memory_usage]. split; [reflexivity|].
    unfold true_div, MEMORY_LIMIT, Qeq; cbn. lia.
  - exists busy_stream, busy_result. split.
    + vm_compute. reflexivity.
    + vm_compute. reflexivity.
Qed.

Lemma C7_memory_usage_ratio_witness :
  memory_usage busy_result
  = true_div (change_event_count busy_stream (header_of busy_stream))
      MEMORY_LIMIT.
Proof.
  destruct C7_memory_usage_ratio as (_ & H & _).
  destruct (H busy_stream busy_result) as (H1 & _).
  - vm_compute. reflexivity.
  - exact H1.
Defined.

(** C10: whenever [validate] returns, with [frame_count = F], then [F >= 1]
    and the final counter [c] satisfies [4 <= c <= 4 * F]: the counter
    starts at 0, is 4 after the first frame, and each further frame adds
    between 0 and 4, so it is never negative and never decreases. *)
Theorem C10_count_bounds (s : list byte) (r : ValidationResults) :
  fst (validate (open s)) = Returns r ->
  let F := frame_count r in
  let c := count_after s (h_start (header_of s)) in
  1 <= F
  /\ change_event_count s (header_of s) = c (Z.to_nat F)
  /\ memory_usage r = true_div (c (Z.to_nat F)) MEMORY_LIMIT
  /\ 4 <= c (Z.to_nat F) <= 4 * F
  /\ c 0%nat = 0 /\ c 1%nat = 4
  /\ (forall k, 0 <= c k /\ c k <= c (S k) <= c k + 4).
Proof.
  intros H F c.
  destruct (validate_returns s r H) as (_ & Hok & Er).
  assert (HF : F = h_frame_count (header_of s)) by (subst F; rewrite Er; reflexivity).
  assert (H1 : 1 <= F) by (rewrite HF; apply Hok).
  split; [exact H1|]. split; [subst c; rewrite HF; reflexivity|].
  split; [rewrite Er; subst c; rewrite HF; reflexivity|].
  split.
  { pose proof (count_after_bounds s (h_start (header_of s)) (Z.to_nat F)).
    subst c. lia. }
  split; [apply count_after_0|]. split; [apply count_after_1|].
  intros k. split; [apply count_after_nonneg | apply count_after_step].
Qed.

Lemma C10_count_bounds_witness :
  4 <= count_after busy_stream 24 876 <= 4 * 876.
Proof.
  pose proof (C10_count_bounds busy_stream busy_result) as H.
  cbv zeta in H. destruct H as (_ & _ & _ & H & _).
  - vm_compute. reflexivity.
  - exact H.
Defined.

(** ** The version and determinism *)

(** C8: two streams that differ at most in the version bytes (offsets 6 and
    7) have the same outcome, be it a result or an exception: the version
    neither aborts the run nor changes what it returns. When the run
    returns, the warning is printed exactly when (major, minor) is neither
    (2, 0) nor (2, 2), and nothing is printed otherwise. *)
Theorem C8_version_advisory (pre rest : list byte) (a b c d : byte) :
  length pre = 6%nat ->
  let s1 := pre ++ [a; b] ++ rest in
  let s2 := pre ++ [c; d] ++ rest in
  fst (validate (open s1)) = fst (validate (open s2))
  /\ (forall r,
        fst (validate (open s1)) = Returns r ->
        h_minor (header_of s1) = u8 a /\ h_major (header_of s1) = u8 b
        /\ (validated_version (u8 b) (u8 a) ->
            stdout (snd (validate (open s1))) = [])
        /\ (~ validated_version (u8 b) (u8 a) ->
            stdout (snd (validate (open s1))) = warning (u8 b) (u8 a))).
Proof.
  intros Hpre s1 s2.
  do 6 (destruct pre as [|? pre]; [discriminate Hpre|]).
  destruct pre; [clear Hpre | discriminate Hpre].
  split.
  - unfold open.
    destruct (Nat.lt_ge_cases (length s1) 21) as [Hs|Hs].
    + rewrite (validate_short s1 [] Hs). symmetry. apply validate_short.
      subst s1 s2. cbn [length app] in *. exact Hs.
    + assert (Hs2 : (21 <= length s2)%nat).
      { subst s1 s2. cbn [length app] in *. exact Hs. }
      rewrite (validate_outcome s1 [] Hs), (validate_outcome s2 [] Hs2).
      change (outcome_of (header_of s2)) with (outcome_of (header_of s1)).
      destruct (Z.lt_ge_cases (h_start (header_of s1)) 24) as [Hlt|Hge].
      * apply outcome_of_small_start, Hlt.
      * f_equal. unfold change_event_count, count_after.
        change (h_start (header_of s2)) with (h_start (header_of s1)).
        change (h_frame_count (header_of s2))
          with (h_frame_count (header_of s1)).
        f_equal. apply prev_after_suffix.
        replace (Z.to_nat (h_start (header_of s1)))
          with (8 + (Z.to_nat (h_start (header_of s1)) - 8))%nat by lia.
        reflexivity.
  - intros r Hr.
    destruct (validate_returns s1 r Hr) as (Hs & Hok & _).
    pose proof (read_header_long s1 [] Hs) as Hh.
    destruct (validate_success s1 [] _ Hh Hok) as (j & E).
    unfold open. rewrite E. cbn [snd stdout app].
    change (h_minor (header_of s1)) with (u8 a).
    change (h_major (header_of s1)) with (u8 b).
    split; [reflexivity|]. split; [reflexivity|].
    split; intros Hv.
    + apply version_check_false in Hv. rewrite Hv. reflexivity.
    + destruct ((negb (u8 a =? 0) && negb (u8 a =? 2)) || negb (u8 b =? 2))
        eqn:Ev; [reflexivity|].
      apply version_check_false in Ev. contradiction.
Qed.

Lemma C8_version_advisory_witness :
  fst (validate (open one_frame_stream))
  = fst (validate (open one_frame_stream_v31)).
Proof.
  pose proof (C8_version_advisory (firstn 6 one_frame_stream)
                (skipn 8 one_frame_stream) x00 x02 x01 x03 eq_refl) as H.
  cbv zeta in H. destruct H as (H & _). exact H.
Defined.

(** C9: the outcome of [validate] is a function of the byte stream read from
    a given position: two runs over the same bytes from the same position
    give the same result or the same exception, leave the file at the same
    position and print the same text, whatever was printed before; the loop
    over the frames gives the same final state, hence the same counter. *)
Theorem C9_deterministic (w1 w2 : World) :
  data w1 = data w2 -> pos w1 = pos w2 ->
  fst (validate w1) = fst (validate w2)
  /\ pos (snd (validate w1)) = pos (snd (validate w2))
  /\ (exists o, stdout (snd (validate w1)) = stdout w1 ++ o
                /\ stdout (snd (validate w2)) = stdout w2 ++ o)
  /\ (forall n p, fst (frames_loop n p w1) = fst (frames_loop n p w2)).
Proof.
  destruct w1 as [d k out1], w2 as [d2 k2 out2]; cbn [data pos stdout].
  intros <- <-.
  destruct (param_validate d k) as (r & k' & o & H).
  rewrite (H out1), (H out2); cbn [fst snd pos stdout].
  split; [reflexivity|]. split; [reflexivity|].
  split; [exists o; split; reflexivity|].
  intros n p. destruct (param_frames_loop n p d k) as (r' & j & o' & H').
  rewrite (H' out1), (H' out2). reflexivity.
Qed.

Lemma C9_deterministic_witness :
  fst (validate (open one_frame_stream))
  = fst (validate (mkWorld one_frame_stream 0 [[Lit "earlier output"]])).
Proof.
  apply (C9_deterministic (open one_frame_stream)
           (mkWorld one_frame_stream 0 [[Lit "earlier output"]]));
    reflexivity.
Defined.


(** * Further properties of [validate] *)

(** ** Failures *)

Lemma read_header_stdout w : stdout (snd (read_header w)) = stdout w.
Proof.
  destruct (param_read_header (data w) (pos w)) as (r & k' & o & H).
  destruct w as [d k out]; cbn [data pos stdout] in *.
  assert (Ho : o = []).
  { pose proof (H []) as H0. revert H0.
    unfold read_header, bind, read, seek, lift, ret; cbn [data pos stdout].
    destruct (unpack_HBB _) as [[[? ?] ?]|?]; cbn [data pos stdout];
      [|intros E; injection E; auto].
    destruct (unpack_IIB _) as [[[? ?] ?]|?]; cbn [data pos stdout];
      [|intros E; injection E; auto].
    destruct (unpack_B _) as [?|?]; intros E; injection E; auto. }
  rewrite (H out), Ho, app_nil_r. reflexivity.
Qed.

(** Every raise of [validate] comes before its prints. *)
Lemma validate_raises_silent s e :
  fst (validate (open s)) = Raises e ->
  stdout (snd (validate (open s))) = [].
Proof.
  intros H. unfold open in *.
  destruct (Nat.lt_ge_cases (length s) 21) as [Hs|Hs].
  { pose proof (read_header_short s [] Hs) as E.
    pose proof (read_header_stdout (mkWorld s 0 [])) as Ho.
    destruct (read_header (mkWorld s 0 [])) as [o w1] eqn:Hr.
    cbn in E; subst o. rewrite (validate_header_error _ _ _ Hr).
    exact Ho. }
  pose proof (read_header_long s [] Hs) as Hr.
  set (h := header_of s) in *.
  destruct (format_ok_dec h) as [Hf|Hf].
  2:{ rewrite (validate_format_error _ _ _ Hr Hf). reflexivity. }
  destruct (Z.eq_dec (h_channel_count h) 48) as [Hc|Hc].
  2:{ rewrite (validate_channel_error _ _ _ Hr Hf Hc). reflexivity. }
  destruct (Z.eq_dec (h_compression_type h) 0) as [Hz|Hz].
  2:{ rewrite (validate_compression_error _ _ _ Hr Hf Hc Hz). reflexivity. }
  destruct (Qlt_le_dec (inject_Z 300)
              (true_div (h_frame_count h * h_step_time h) 1000)) as [Hd|Hd].
  { rewrite (validate_duration_error _ _ _ Hr Hf Hc Hz Hd). reflexivity. }
  assert (Hok : header_ok h) by (repeat split; try apply Hf; assumption).
  destruct (validate_success s [] h Hr Hok) as (j & E).
  rewrite E in H. discriminate.
Qed.

(** X1: a file too short to hold the header fields, the empty file
    included, makes [validate] raise [struct.error], whatever its bytes,
    and nothing is printed. *)
Theorem X1_short_file_struct_error (s : list byte) :
  (length s < 21)%nat ->
  fst (validate (open s)) = Raises struct_error
  /\ stdout (snd (validate (open s))) = [].
Proof.
  intros Hs. pose proof (validate_short s [] Hs) as E.
  split; [exact E|]. exact (validate_raises_silent s _ E).
Qed.

Lemma X1_short_file_struct_error_witness :
  fst (validate (open [])) = Raises struct_error
  /\ stdout (snd (validate (open []))) = [].
Proof.
  apply (X1_short_file_struct_error []). cbn. lia.
Defined.

(** X2: with the right magic, a data start below 24, a frame count of 0 or
    a step time below 15 still raises the format error, before the channel
    count, the compression type and the duration are looked at. *)
Theorem X2_format_bounds (s : list byte) (h : Header) (w1 : World) :
  read_header (open s) = (Returns h, w1) ->
  h_start h < 24 \/ h_frame_count h < 1 \/ h_step_time h < 15 ->
  fst (validate (open s)) = Raises (ValidationError msg_format).
Proof.
  intros Hr Hb. rewrite (validate_format_error _ _ _ Hr); [reflexivity|].
  intros (_ & H1 & H2 & H3). lia.
Qed.

Lemma X2_format_bounds_witness :
  fst (validate (open fast_step_stream)) = Raises (ValidationError msg_format).
Proof.
  apply (X2_format_bounds fast_step_stream (header_of fast_step_stream)
           (mkWorld fast_step_stream 21 [])).
  - reflexivity.
  - right; right. vm_compute. reflexivity.
Defined.

(** X3: a header that passes the format check with a channel count other
    than 48 raises the error that reports the count read, whatever the
    compression type and the duration. *)
Theorem X3_channel_count_error (s : list byte) (h : Header) (w1 : World) :
  read_header (open s) = (Returns h, w1) ->
  format_ok h -> h_channel_count h <> 48 ->
  fst (validate (open s))
  = Raises (ValidationError
              [Lit "Expected 48 channels, got "; FmtInt (h_channel_count h)]).
Proof.
  intros Hr Hf Hc. rewrite (validate_channel_error _ _ _ Hr Hf Hc).
  reflexivity.
Qed.

Lemma X3_channel_count_error_witness :
  fst (validate (open bad_channel_stream))
  = Raises (ValidationError [Lit "Expected 48 channels, got "; FmtInt 47]).
Proof.
  apply (X3_channel_count_error bad_channel_stream
           (header_of bad_channel_stream) (mkWorld bad_channel_stream 21 [])).
  - reflexivity.
  - split; [reflexivity |
      repeat (split; [vm_compute; discriminate|]); vm_compute; discriminate].
  - vm_compute. discriminate.
Defined.

(** X4: a header that passes the format and channel checks with a
    compression type other than 0 raises the compression error, whatever
    the duration. *)
Theorem X4_compression_error (s : list byte) (h : Header) (w1 : World) :
  read_header (open s) = (Returns h, w1) ->
  format_ok h -> h_channel_count h = 48 -> h_compression_type h <> 0 ->
  fst (validate (open s)) = Raises (ValidationError msg_compression).
Proof.
  intros Hr Hf Hc Hz. rewrite (validate_compression_error _ _ _ Hr Hf Hc Hz).
  reflexivity.
Qed.

Lemma X4_compression_error_witness :
  (inject_Z 300
   < true_div (h_frame_count (header_of compressed_stream)
               * h_step_time (header_of compressed_stream)) 1000)%Q
  /\ fst (validate (open compressed_stream))
     = Raises (ValidationError msg_compression).
Proof.
  split; [vm_compute; reflexivity|].
  apply (X4_compression_error compressed_stream
           (header_of compressed_stream) (mkWorld compressed_stream 21 [])).
  - reflexivity.
  - split; [reflexivity |
      repeat (split; [vm_compute; discriminate|]); vm_compute; discriminate].
  - reflexivity.
  - vm_compute. discriminate.
Defined.

(** X5: whenever [validate] raises, it has printed nothing: every raise
    comes before the warning. *)
Theorem X5_no_output_on_failure (s : list byte) (e : Exception) :
  fst (validate (open s)) = Raises e ->
  stdout (snd (validate (open s))) = [].
Proof.
  exact (validate_raises_silent s e).
Qed.

Lemma X5_no_output_on_failure_witness :
  stdout (snd (validate (open bad_channel_stream))) = [].
Proof.
  apply (X5_no_output_on_failure bad_channel_stream
           (ValidationError (msg_channels 47))).
  reflexivity.
Defined.

(** ** Results *)

Lemma le_uint_range bs : 0 <= le_uint bs < 256 ^ Z.of_nat (length bs).
Proof.
  induction bs as [|b bs IH].
  - cbn. lia.
  - cbn [le_uint length]. rewrite Nat2Z.inj_succ, Z.pow_succ_r by lia.
    pose proof (u8_range b). lia.
Qed.

(** X6: whenever [validate] returns, the result lies in fixed ranges:
    between 1 and 20000 frames, a step time between 15 and 255, a positive
    duration of at most 300, and a memory usage between 4 / 3500 and
    80000 / 3500. *)
Theorem X6_result_ranges (s : list byte) (r : ValidationResults) :
  fst (validate (open s)) = Returns r ->
  1 <= frame_count r <= 20000
  /\ 15 <= step_time r <= 255
  /\ (duration_s r == frame_count r * step_time r # 1000)%Q
  /\ (0 < duration_s r <= inject_Z 300)%Q
  /\ (true_div 4 MEMORY_LIMIT <= memory_usage r
      <= true_div 80000 MEMORY_LIMIT)%Q.
Proof.
  intros H. destruct (validate_returns s r H) as (Hs & Hok & ->).
  cbn [frame_count step_time duration_s memory_usage].
  destruct Hok as ((_ & _ & HF & HT) & _ & _ & Hd).
  set (h := header_of s) in *.
  pose proof (proj1 (duration_le _) Hd) as Hd'.
  assert (HT' : h_step_time h <= 255).
  { subst h. unfold header_of; cbn [h_step_time].
    pose proof (u8_range (nth 18 s x00)). lia. }
  assert (HF' : h_frame_count h <= 20000) by nia.
  assert (Hc : 4 <= change_event_count s h
               <= 4 * Z.of_nat (Z.to_nat (h_frame_count h))).
  { apply count_after_bounds. lia. }
  generalize dependent (change_event_count s h). clearbody h.
  intros c _ Hc.
  split; [lia|]. split; [lia|].
  split; [unfold true_div, Qeq; cbn; lia|].
  split; [split; [unfold true_div, Qlt; cbn; nia | exact Hd]|].
  unfold true_div, MEMORY_LIMIT, Qle; cbn. lia.
Qed.

Lemma X6_result_ranges_witness :
  1 <= frame_count busy_result <= 20000
  /\ 15 <= step_time busy_result <= 255.
Proof.
  destruct (X6_result_ranges busy_stream busy_result) as (H1 & H2 & _).
  - vm_compute. reflexivity.
  - split; [exact H1 | exact H2].
Defined.

(** X13: a run that reports a memory usage above 1 has at least 876
    frames, hence a duration of at least 13.14 s. *)
Theorem X13_over_budget_needs_frames (s : list byte) (r : ValidationResults) :
  fst (validate (open s)) = Returns r ->
  (inject_Z 1 < memory_usage r)%Q ->
  876 <= frame_count r /\ (13140 # 1000 <= duration_s r)%Q.
Proof.
  intros H Hm. destruct (validate_returns s r H) as (Hs & Hok & ->).
  cbn [frame_count duration_s memory_usage] in *.
  destruct Hok as ((_ & _ & HF & HT) & _).
  set (h := header_of s) in *.
  assert (Hc : 4 <= change_event_count s h
               <= 4 * Z.of_nat (Z.to_nat (h_frame_count h))).
  { apply count_after_bounds. lia. }
  generalize dependent (change_event_count s h). clearbody h.
  intros c Hm _ Hc.
  assert (Hc' : 3500 < c).
  { revert Hm. unfold true_div, MEMORY_LIMIT, Qlt; cbn. lia. }
  assert (HF' : 876 <= h_frame_count h) by lia.
  split; [exact HF'|].
  unfold true_div, Qle; cbn. nia.
Qed.

Lemma X13_over_budget_needs_frames_witness :
  876 <= frame_count busy_result.
Proof.
  destruct (X13_over_budget_needs_frames busy_stream busy_result) as (H & _).
  - vm_compute. reflexivity.
  - vm_compute. reflexivity.
  - exact H.
Defined.

(** ** What the outcome depends on *)

(** X7: the outcome of [validate] depends only on the eight header fields
    and on the bytes from the data start on: two streams with the same
    header fields and the same bytes from there on have the same result or
    the same exception, whatever the bytes at offsets 8, 9 and 19 and
    between the header and the data start. *)
Theorem X7_header_and_data_only (s1 s2 : list byte) (h : Header)
    (w1 w2 : World) :
  read_header (open s1) = (Returns h, w1) ->
  read_header (open s2) = (Returns h, w2) ->
  skipn (Z.to_nat (h_start h)) s1 = skipn (Z.to_nat (h_start h)) s2 ->
  fst (validate (open s1)) = fst (validate (open s2)).
Proof.
  intros H1 H2 Hd.
  destruct (read_header_inv s1 [] h w1 H1) as (L1 & E1 & _).
  destruct (read_header_inv s2 [] h w2 H2) as (L2 & E2 & _).
  unfold open.
  rewrite (validate_outcome s1 [] L1), (validate_outcome s2 [] L2).
  rewrite <- E1, <- E2. f_equal.
  unfold change_event_count, count_after.
  rewrite (prev_after_suffix s1 s2 _ _ Hd). reflexivity.
Qed.

Lemma X7_header_and_data_only_witness :
  fst (validate (open one_frame_stream))
  = fst (validate (open one_frame_stream_gaps)).
Proof.
  apply (X7_header_and_data_only one_frame_stream one_frame_stream_gaps
           (header_of one_frame_stream)
           (mkWorld one_frame_stream 21 [])
           (mkWorld one_frame_stream_gaps 21 []));
    reflexivity.
Defined.

(** ** Complete frames *)

Lemma frame_body_complete p d k out f rest :
  skipn k d = f ++ rest -> length f = 48%nat ->
  frame_body p (mkWorld d k out)
  = (Returns (decode_frame p f), mkWorld d (k + 48) out)
  /\ skipn (k + 48) d = rest.
Proof.
  intros H Hf.
  assert (Hl : firstn 30 (skipn k d) = firstn 30 f).
  { rewrite H, firstn_app, Hf. change (30 - 48)%nat with 0%nat.
    rewrite firstn_O. apply app_nil_r. }
  assert (Hll : length (firstn 30 f) = 30%nat).
  { rewrite length_firstn, Hf. reflexivity. }
  assert (Hc : firstn 16 (skipn (k + 30) d) = firstn 16 (skipn 30 f)).
  { rewrite (Nat.add_comm k 30), <- skipn_skipn, H, skipn_app, Hf.
    change (30 - 48)%nat with 0%nat. rewrite skipn_O.
    rewrite firstn_app, length_skipn, Hf.
    change (16 - (48 - 30))%nat with 0%nat.
    rewrite firstn_O. apply app_nil_r. }
  assert (Hcl : length (firstn 16 (skipn 30 f)) = 16%nat).
  { rewrite length_firstn, length_skipn, Hf. reflexivity. }
  split.
  - unfold frame_body, bind, read, seek_cur, ret; cbn [data pos stdout].
    rewrite Hl, Hll, Hc, Hcl. unfold decode_frame.
    do 2 f_equal. lia.
  - rewrite (Nat.add_comm k 48), <- skipn_skipn, H, skipn_app, Hf.
    change (48 - 48)%nat with 0%nat. rewrite skipn_O.
    rewrite skipn_all2 by lia. reflexivity.
Qed.

Lemma frames_loop_complete frames : forall p d k out rest,
  skipn k d = concat frames ++ rest ->
  Forall (fun f => length f = 48%nat) frames ->
  frames_loop (length frames) p (mkWorld d k out)
  = (Returns (fold_frames frames p),
     mkWorld d (k + 48 * length frames) out).
Proof.
  induction frames as [|f fs IH]; intros p d k out rest H Hall.
  - cbn. unfold ret. do 2 f_equal. lia.
  - inversion Hall as [|? ? Hf Hfs]; subst.
    cbn [concat] in H. rewrite <- app_assoc in H.
    destruct (frame_body_complete p d k out f _ H Hf) as (Hb & Hk).
    cbn [length frames_loop]. unfold bind. rewrite Hb.
    rewrite (IH _ d (k + 48)%nat out rest Hk Hfs).
    cbn [fold_frames fold_left]. do 2 f_equal. lia.
Qed.

Lemma skipn_prefix {A} (pre l : list A) : skipn (length pre) (pre ++ l) = l.
Proof.
  rewrite skipn_app, Nat.sub_diag, skipn_all. reflexivity.
Qed.

(** X8: when the stream holds the declared frames in full, the loop is the
    fold of the frame decoding over consecutive 48-byte frames, each giving
    its bytes 0 to 29 as lights and 30 to 45 as closures; the file ends 48
    bytes per frame after the data start, and what follows is not read. *)
Theorem X8_complete_frames (pre tail : list byte)
    (frames : list (list byte)) (start : Z) (p : Prev) (out : list message) :
  length pre = Z.to_nat start ->
  Forall (fun f => length f = 48%nat) frames ->
  let s := pre ++ concat frames ++ tail in
  frames_loop (length frames) p (mkWorld s (Z.to_nat start) out)
  = (Returns (fold_frames frames p),
     mkWorld s (Z.to_nat start + 48 * length frames) out)
  /\ count_after s start (length frames)
     = count (fold_frames frames init_prev).
Proof.
  intros Hpre Hall s.
  assert (Hs : skipn (Z.to_nat start) s = concat frames ++ tail).
  { subst s. rewrite <- Hpre. apply skipn_prefix. }
  split.
  - exact (frames_loop_complete frames p s _ out tail Hs Hall).
  - unfold count_after, prev_after.
    rewrite (frames_loop_complete frames init_prev s _ [] tail Hs Hall).
    reflexivity.
Qed.

Lemma X8_complete_frames_witness :
  count_after static_stream 24 3
  = count (fold_frames [repeat x00 48; quiet_frame; repeat x00 48] init_prev).
Proof.
  pose proof (X8_complete_frames (header_bytes x00 x02 x03 x00 x14)
                [xaa; xbb] [repeat x00 48; quiet_frame; repeat x00 48]
                24 init_prev []) as H.
  cbv zeta in H. destruct H as (_ & H).
  - reflexivity.
  - repeat constructor.
  - exact H.
Defined.

Lemma decode_frame_same_state f g p :
  same_state f g -> decode_frame p f = decode_frame p g.
Proof.
  intros (Hl & Hr & Hc). unfold decode_frame.
  rewrite !update_spec, Hl, Hr, Hc. reflexivity.
Qed.

Lemma fold_frames_same_state frames frames' :
  Forall2 same_state frames frames' ->
  forall p, fold_frames frames p = fold_frames frames' p.
Proof.
  induction 1 as [|f g fs gs Hfg _ IH]; intros p; [reflexivity|].
  cbn [fold_frames fold_left]. rewrite (decode_frame_same_state f g p Hfg).
  apply IH.
Qed.

(** X9: the counter is a function of the decoded vectors only: two streams
    of complete frames whose frames decode, one by one, to the same light,
    ramp and closure vectors have the same loop state and counter, whatever
    their reserved bytes, the bytes before the data start and those after
    the last frame. *)
Theorem X9_same_quantization (pre pre' tail tail' : list byte)
    (frames frames' : list (list byte)) (start : Z) :
  length pre = Z.to_nat start -> length pre' = Z.to_nat start ->
  Forall (fun f => length f = 48%nat) frames ->
  Forall (fun f => length f = 48%nat) frames' ->
  Forall2 same_state frames frames' ->
  prev_after (pre ++ concat frames ++ tail) start (length frames)
  = prev_after (pre' ++ concat frames' ++ tail') start (length frames').
Proof.
  intros Hp Hp' Hall Hall' Hsame.
  assert (E : forall pr tl fr,
            length pr = Z.to_nat start ->
            Forall (fun f => length f = 48%nat) fr ->
            prev_after (pr ++ concat fr ++ tl) start (length fr)
            = fold_frames fr init_prev).
  { intros pr tl fr Hpr Hfr. unfold prev_after.
    rewrite (frames_loop_complete fr init_prev _ _ [] tl);
      [reflexivity | | exact Hfr].
    rewrite <- Hpr. apply skipn_prefix. }
  rewrite (E pre tail frames Hp Hall), (E pre' tail' frames' Hp' Hall').
  apply fold_frames_same_state, Hsame.
Qed.

Lemma X9_same_quantization_witness :
  prev_after static_stream 24 3
  = prev_after (header_bytes x01 x03 x03 x00 x14
                  ++ concat [repeat x00 48; repeat x00 48; quiet_frame] ++ [])
      24 3.
Proof.
  apply (X9_same_quantization (header_bytes x00 x02 x03 x00 x14)
           (header_bytes x01 x03 x03 x00 x14) [xaa; xbb] []
           [repeat x00 48; quiet_frame; repeat x00 48]
           [repeat x00 48; repeat x00 48; quiet_frame] 24);
    try reflexivity; repeat constructor.
Defined.

Lemma decode_frame_again f g p :
  same_state f g -> decode_frame (decode_frame p f) g = decode_frame p f.
Proof.
  intros (Hl & Hr & Hc). unfold decode_frame.
  rewrite (update_spec _ _ (update _ _ p)), update_spec.
  cbn [prev_light prev_ramp prev_closure_1 prev_closure_2 count].
  rewrite <- Hl, <- Hr, <- Hc.
  rewrite (proj2 (differs_false _ Bool.eqb_true_iff _ _) eq_refl).
  rewrite !(proj2 (differs_false _ Z.eqb_eq _ _) eq_refl).
  cbn [b2z]. f_equal. lia.
Qed.

(** X10: a show that stands still costs 4 events, however long it is: when
    every complete frame decodes to the same vectors as the first one, the
    counter after all of them is 4. *)
Theorem X10_static_show (pre tail f0 : list byte)
    (frames : list (list byte)) (start : Z) :
  length pre = Z.to_nat start ->
  length f0 = 48%nat ->
  Forall (fun f => length f = 48%nat) frames ->
  Forall (same_state f0) frames ->
  count_after (pre ++ concat (f0 :: frames) ++ tail) start
    (S (length frames)) = 4.
Proof.
  intros Hp Hf0 Hall Hsame. unfold count_after, prev_after.
  change (S (length frames)) with (length (f0 :: frames)).
  rewrite (frames_loop_complete (f0 :: frames) init_prev _ _ [] tail);
    [| rewrite <- Hp; apply skipn_prefix | constructor; assumption ].
  cbn [fst fold_frames fold_left].
  assert (E : fold_left decode_frame frames (decode_frame init_prev f0)
              = decode_frame init_prev f0).
  { clear Hall. induction Hsame as [|g gs Hg _ IH]; [reflexivity|].
    cbn [fold_left]. rewrite (decode_frame_again f0 g _ Hg). exact IH. }
  rewrite E. apply update_init.
Qed.

Lemma X10_static_show_witness : count_after static_stream 24 3 = 4.
Proof.
  apply (X10_static_show (header_bytes x00 x02 x03 x00 x14) [xaa; xbb]
           (repeat x00 48) [quiet_frame; repeat x00 48] 24);
    try reflexivity; repeat constructor.
Defined.

(** ** The quantization tables *)

(** X11: the ramp level depends on the distance [v] of the byte to the
    nearer end of the range 0..255: level 0 below 13, 1 from 13 to 38, 2
    from 39 to 64 and 3 from 65 on; a byte and its mirror image [255 - b]
    have the same level. *)
Theorem X11_ramp_thresholds (b : Z) :
  0 <= b <= 255 ->
  let v := Z.min b (255 - b) in
  (v < 13 -> ramp_level b = 0)
  /\ (13 <= v < 39 -> ramp_level b = 1)
  /\ (39 <= v < 65 -> ramp_level b = 2)
  /\ (65 <= v -> ramp_level b = 3)
  /\ ramp_level (255 - b) = ramp_level b.
Proof.
  intros Hb v.
  assert (Hv : ramp_level b = Z.min ((v / 13 + 1) / 2) 3).
  { unfold ramp_level. subst v. destruct (Z.gtb_spec b 127).
    - rewrite (Z.min_r b (255 - b)) by lia. reflexivity.
    - rewrite (Z.min_l b (255 - b)) by lia. reflexivity. }
  assert (Hm : ramp_level (255 - b) = Z.min ((v / 13 + 1) / 2) 3).
  { unfold ramp_level. subst v. destruct (Z.gtb_spec (255 - b) 127).
    - replace (255 - (255 - b)) with b by lia.
      rewrite (Z.min_l b (255 - b)) by lia. reflexivity.
    - rewrite (Z.min_r b (255 - b)) by lia. reflexivity. }
  rewrite Hm, Hv. clear Hv Hm.
  assert (0 <= v <= 127) by (subst v; lia). clearbody v.
  repeat split; intros; Z.to_euclidean_division_equations; lia.
Qed.

Lemma X11_ramp_thresholds_witness :
  ramp_level 216 = 2 /\ ramp_level (255 - 216) = ramp_level 216.
Proof.
  destruct (X11_ramp_thresholds 216) as (_ & _ & H & _ & Hs).
  - lia.
  - split; [apply H; vm_compute; split; [discriminate | reflexivity]
           | exact Hs].
Defined.

(** X12: the closure level of a byte is 0 below 32, 1 from 32 to 95, 2 from
    96 to 159, 3 from 160 to 223 and 4 from 224 on, so that it lies in 0..4
    for every byte. *)
Theorem X12_closure_thresholds (b : Z) :
  0 <= b <= 255 ->
  (b < 32 -> closure_level b = 0)
  /\ (32 <= b < 96 -> closure_level b = 1)
  /\ (96 <= b < 160 -> closure_level b = 2)
  /\ (160 <= b < 224 -> closure_level b = 3)
  /\ (224 <= b -> closure_level b = 4)
  /\ 0 <= closure_level b <= 4.
Proof.
  intros Hb. unfold closure_level.
  repeat split; intros; Z.to_euclidean_division_equations; lia.
Qed.

Lemma X12_closure_thresholds_witness : closure_level 224 = 4.
Proof.
  destruct (X12_closure_thresholds 224) as (_ & _ & _ & _ & H & _).
  - lia.
  - apply H. lia.
Defined.

(** ** The command line *)

Lemma memory_check c :
  Qgtb (true_div c MEMORY_LIMIT) (inject_Z 1) = true <-> 3500 < c.
Proof.
  unfold Qgtb. rewrite negb_true_iff, <- not_true_iff_false, Qle_bool_iff.
  unfold true_div, MEMORY_LIMIT, Qle; cbn. lia.
Qed.

Lemma validate_returns_stdout s r :
  fst (validate (open s)) = Returns r ->
  stdout (snd (validate (open s)))
  = if (negb (h_minor (header_of s) =? 0) && negb (h_minor (header_of s) =? 2))
       || negb (h_major (header_of s) =? 2)
    then warning (h_major (header_of s)) (h_minor (header_of s)) else [].
Proof.
  intros H. destruct (validate_returns s r H) as (Hs & Hok & _).
  destruct (validate_success s [] _ (read_header_long s [] Hs) Hok)
    as (j & E).
  unfold open. rewrite E. reflexivity.
Qed.

(** X14: the script ends with status 0 exactly when [validate] returns and
    the counter is at most 3500; it ends with [sys.exit(1)] exactly when
    [validate] raises [ValidationError] or returns with a counter above
    3500. *)
Theorem X14_main_exit_status (s : list byte) :
  (snd (main s) = Exit 0
   <-> exists r, fst (validate (open s)) = Returns r
                 /\ change_event_count s (header_of s) <= 3500)
  /\ (snd (main s) = Exit 1
      <-> (exists msg, fst (validate (open s)) = Raises (ValidationError msg))
          \/ (exists r, fst (validate (open s)) = Returns r
                        /\ 3500 < change_event_count s (header_of s))).
Proof.
  unfold main.
  destruct (validate (open s)) as [[r|[msg|]] w] eqn:E; cbn [fst snd].
  - assert (Hr : fst (validate (open s)) = Returns r) by (rewrite E; reflexivity).
    destruct (validate_returns s r Hr) as (_ & _ & Er).
    assert (Em : memory_usage r
                 = true_div (change_event_count s (header_of s)) MEMORY_LIMIT)
      by (rewrite Er; reflexivity).
    rewrite Em.
    destruct (Qgtb _ _) eqn:G; cbn [snd].
    + apply memory_check in G. split; split.
      * discriminate.
      * intros (r' & _ & Hc). lia.
      * intros _. right. exists r. auto.
      * reflexivity.
    + assert (Hc : change_event_count s (header_of s) <= 3500).
      { destruct (Z.le_gt_cases (change_event_count s (header_of s)) 3500)
          as [L|L]; [exact L|].
        apply memory_check in L. rewrite L in G. discriminate. }
      split; split.
      * intros _. exists r. auto.
      * reflexivity.
      * discriminate.
      * intros [(m & Hm) | (r' & _ & Hc')]; [discriminate | lia].
  - split; split.
    + discriminate.
    + intros (r & Hr & _). discriminate.
    + intros _. left. exists msg. reflexivity.
    + reflexivity.
  - split; split.
    + discriminate.
    + intros (r & Hr & _). discriminate.
    + discriminate.
    + intros [(m & Hm) | (r & Hr & _)]; discriminate.
Qed.

Lemma X14_main_exit_status_witness :
  snd (main one_frame_stream) = Exit 0 /\ snd (main busy_stream) = Exit 1.
Proof.
  split.
  - apply (proj1 (X14_main_exit_status one_frame_stream)).
    exists one_frame_result. split; [reflexivity|].
    vm_compute. discriminate.
  - apply (proj2 (X14_main_exit_status busy_stream)).
    right. exists busy_result. split; vm_compute; reflexivity.
Defined.

(** X15: when [validate] raises [ValidationError], the script prints the
    message of the exception and nothing else, and exits with status 1. *)
Theorem X15_main_reports_error (s : list byte) (msg : message) :
  fst (validate (open s)) = Raises (ValidationError msg) ->
  main s = ([plain msg], Exit 1).
Proof.
  intros H. pose proof (validate_raises_silent s _ H) as Ho.
  unfold main. destruct (validate (open s)) as [o w].
  cbn [fst snd] in *. subst o. rewrite Ho. reflexivity.
Qed.

Lemma X15_main_reports_error_witness :
  main bad_channel_stream
  = ([plain [Lit "Expected 48 channels, got "; FmtInt 47]], Exit 1).
Proof.
  apply (X15_main_reports_error bad_channel_stream). reflexivity.
Defined.

(** X16: on a file shorter than 21 bytes the script prints nothing and the
    [struct.error] of the header unpacking escapes the handler, which
    catches [ValidationError] only. *)
Theorem X16_main_short_file (s : list byte) :
  (length s < 21)%nat ->
  main s = ([], Uncaught struct_error).
Proof.
  intros Hs.
  assert (H : fst (validate (open s)) = Raises struct_error)
    by exact (validate_short s [] Hs).
  pose proof (validate_raises_silent s _ H) as Ho.
  unfold main. destruct (validate (open s)) as [o w].
  cbn [fst snd] in *. subst o. rewrite Ho. reflexivity.
Qed.

Lemma X16_main_short_file_witness :
  main short_stream = ([], Uncaught struct_error).
Proof.
  apply (X16_main_short_file short_stream). cbn. lia.
Defined.

(** X17: when [validate] returns, the script prints the two lines of the
    report, built from the result, after the five lines of the version
    warning when (major, minor) is neither (2, 0) nor (2, 2), and after
    nothing otherwise. *)
Theorem X17_main_report (s : list byte) (r : ValidationResults) :
  fst (validate (open s)) = Returns r ->
  let major := h_major (header_of s) in
  let minor := h_minor (header_of s) in
  (validated_version major minor ->
   fst (main s) = [found_line r; used_line r])
  /\ (~ validated_version major minor ->
      fst (main s)
      = map plain (warning major minor) ++ [found_line r; used_line r]).
Proof.
  intros H major minor. pose proof (validate_returns_stdout s r H) as Ho.
  fold major minor in Ho.
  assert (E : fst (main s)
              = map plain (stdout (snd (validate (open s))))
                  ++ [found_line r; used_line r]).
  { unfold main. destruct (validate (open s)) as [o w].
    cbn [fst snd] in *. subst o.
    destruct (Qgtb _ _); reflexivity. }
  rewrite E, Ho. split; intros Hv.
  - apply version_check_false in Hv. rewrite Hv. reflexivity.
  - destruct ((negb (minor =? 0) && negb (minor =? 2)) || negb (major =? 2))
      eqn:Ev; [reflexivity|].
    apply version_check_false in Ev. contradiction.
Qed.

Lemma X17_main_report_witness :
  fst (main one_frame_stream_v31)
  = map plain (warning 3 1)
      ++ [found_line one_frame_result; used_line one_frame_result].
Proof.
  destruct (X17_main_report one_frame_stream_v31 one_frame_result) as (_ & H).
  - reflexivity.
  - apply H. intros [E|E]; discriminate E.
Defined.

(** ** The header fields and the file position *)

(** X18: when the header is read from a file opened on [s], the fields are
    the bytes of [s] at fixed offsets, the multi-byte ones in little-endian
    order: magic at 0 to 3, data start at 4 and 5, minor at 6, major at 7,
    channel count at 10 to 13, frame count at 14 to 17, step time at 18 and
    compression type at 20; the file is left at offset 21. *)
Theorem X18_header_fields (s : list byte) (h : Header) (w1 : World) :
  read_header (open s) = (Returns h, w1) ->
  let B := fun i => u8 (nth i s x00) in
  h_magic h = firstn 4 s
  /\ h_start h = B 4%nat + 256 * B 5%nat
  /\ h_minor h = B 6%nat /\ h_major h = B 7%nat
  /\ h_channel_count h
     = B 10%nat + 256 * B 11%nat + 65536 * B 12%nat + 16777216 * B 13%nat
  /\ h_frame_count h
     = B 14%nat + 256 * B 15%nat + 65536 * B 16%nat + 16777216 * B 17%nat
  /\ h_step_time h = B 18%nat
  /\ h_compression_type h = B 20%nat
  /\ pos w1 = 21%nat
  /\ 0 <= h_start h < 65536
  /\ 0 <= h_frame_count h < 4294967296.
Proof.
  intros H B. destruct (read_header_inv s [] h w1 H) as (Hs & -> & ->).
  do 21 (destruct s as [|? s]; [cbn in Hs; lia|]).
  subst B. unfold header_of.
  cbn [h_magic h_start h_minor h_major h_channel_count h_frame_count
       h_step_time h_compression_type pos firstn skipn nth le_uint].
  repeat match goal with
         | |- context [u8 ?b] =>
             let x := fresh "x" in
             pose proof (u8_range b); set (x := u8 b) in *; clearbody x
         end.
  repeat split; lia.
Qed.

Lemma X18_header_fields_witness :
  h_start (header_of busy_stream) = 24
  /\ h_frame_count (header_of busy_stream) = 876.
Proof.
  pose proof (X18_header_fields busy_stream (header_of busy_stream)
                (mkWorld busy_stream 21 []) eq_refl) as H.
  cbv zeta in H. destruct H as (_ & H1 & _ & _ & _ & H2 & _).
  split; [rewrite H1 | rewrite H2]; reflexivity.
Defined.

(** X19: [validate] reads the magic at the current position of the file,
    which it never rewinds: on a file object positioned at or past its end,
    as one that a run over complete frames has just left, it raises
    [struct.error], whatever the content. *)
Theorem X19_not_rewound (w : World) :
  (length (data w) <= pos w)%nat ->
  fst (validate w) = Raises struct_error.
Proof.
  intros H. destruct w as [d k out]; cbn [data pos] in H.
  assert (E : fst (read_header (mkWorld d k out)) = Raises struct_error).
  { unfold read_header, bind, read, lift; cbn [data pos stdout].
    rewrite (skipn_all2 d H). cbn [firstn length]. rewrite Nat.add_0_r.
    rewrite (skipn_all2 d H). reflexivity. }
  destruct (read_header (mkWorld d k out)) as [o w1] eqn:Hr.
  cbn [fst] in E; subst o.
  rewrite (validate_header_error _ _ _ Hr). reflexivity.
Qed.

Lemma X19_not_rewound_witness :
  fst (validate (open one_frame_stream)) = Returns one_frame_result
  /\ fst (validate (snd (validate (open one_frame_stream))))
     = Raises struct_error.
Proof.
  split; [reflexivity|].
  apply (X19_not_rewound (snd (validate (open one_frame_stream)))).
  vm_compute. lia.
Defined.

(** ** Data cut at a frame boundary *)

Lemma update_idem lights closures p :
  update lights closures (update lights closures p) = update lights closures p.
Proof.
  rewrite (update_spec _ _ (update _ _ p)), update_spec.
  cbn [prev_light prev_ramp prev_closure_1 prev_closure_2 count].
  rewrite (proj2 (differs_false _ Bool.eqb_true_iff _ _) eq_refl).
  rewrite !(proj2 (differs_false _ Z.eqb_eq _ _) eq_refl).
  cbn [b2z]. f_equal. lia.
Qed.

Lemma frame_body_eof p d k out :
  (length d <= k)%nat ->
  frame_body p (mkWorld d k out)
  = (Returns (update [] [] p), mkWorld d (k + 2) out).
Proof.
  intros H. unfold frame_body, bind, read, seek_cur, ret;
    cbn [data pos stdout].
  rewrite (skipn_all2 d H). cbn [firstn length]. rewrite Nat.add_0_r.
  rewrite (skipn_all2 d H). cbn [firstn length]. rewrite Nat.add_0_r.
  reflexivity.
Qed.

Lemma frames_loop_eof n : forall p d k out,
  (length d <= k)%nat ->
  fst (frames_loop (S n) p (mkWorld d k out)) = Returns (update [] [] p).
Proof.
  induction n as [|n IH]; intros p d k out H.
  - cbn [frames_loop]. unfold bind. rewrite (frame_body_eof p d k out H).
    reflexivity.
  - change (frames_loop (S (S n)) p)
      with (bind (frame_body p) (frames_loop (S n))).
    unfold bind. rewrite (frame_body_eof p d k out H).
    rewrite IH by lia. rewrite update_idem. reflexivity.
Qed.

Lemma frames_loop_app n m : forall p w,
  frames_loop (n + m) p w = bind (frames_loop n p) (frames_loop m) w.
Proof.
  induction n as [|n IH]; intros p w; [reflexivity|].
  cbn [Nat.add frames_loop]. rewrite bind_assoc. unfold bind at 1 2.
  destruct (frame_body p w) as [[q|e] w']; [apply IH | reflexivity].
Qed.

Lemma decode_frame_full p f : length f = 48%nat -> full_state (decode_frame p f).
Proof.
  intros Hf. do 48 (destruct f as [|? f]; [discriminate Hf|]).
  unfold decode_frame. rewrite update_spec.
  cbn [light_state ramp_state closure_state map firstn skipn].
  unfold full_state. repeat eexists.
Qed.

Lemma fold_frames_full frames : forall p,
  full_state p -> Forall (fun f => length f = 48%nat) frames ->
  full_state (fold_frames frames p).
Proof.
  induction frames as [|f fs IH]; intros p Hp Hall; [exact Hp|].
  inversion Hall; subst. cbn [fold_frames fold_left].
  apply IH; [apply decode_frame_full|]; assumption.
Qed.

Lemma update_empty_full p :
  full_state p -> count (update [] [] p) = count p + 4.
Proof.
  intros (l & ls & r & rs & c & cs & e & es & n & ->).
  rewrite update_spec. cbn. lia.
Qed.

(** X20: when the data stops after [n >= 1] complete frames and the header
    declares more, the missing frames are read as empty vectors: the first
    of them adds exactly 4 to the counter of the [n] frames and the others
    add nothing. *)
Theorem X20_cut_at_frame_boundary (pre : list byte)
    (frames : list (list byte)) (start : Z) (k : nat) :
  length pre = Z.to_nat start ->
  frames <> [] ->
  Forall (fun f => length f = 48%nat) frames ->
  let s := pre ++ concat frames in
  count_after s start (length frames + S k)
  = count_after s start (length frames) + 4
  /\ count_after s start (length frames)
     = count (fold_frames frames init_prev).
Proof.
  intros Hp Hne Hall s.
  assert (Hs : skipn (Z.to_nat start) s = concat frames ++ []).
  { subst s. rewrite <- Hp, app_nil_r. apply skipn_prefix. }
  pose proof (frames_loop_complete frames init_prev s _ [] [] Hs Hall) as Hn.
  assert (En : prev_after s start (length frames)
               = fold_frames frames init_prev).
  { unfold prev_after. rewrite Hn. reflexivity. }
  assert (Hlen : (length s
                  <= Z.to_nat start + 48 * length frames)%nat).
  { subst s. rewrite length_app, Hp. apply Nat.add_le_mono_l.
    clear -Hall. induction Hall as [|f fs Hf _ IH]; [cbn; lia|].
    cbn [concat length]. rewrite length_app, Hf. lia. }
  assert (Hfull : full_state (fold_frames frames init_prev)).
  { destruct frames as [|f fs]; [contradiction|].
    inversion Hall; subst. cbn [fold_frames fold_left].
    apply fold_frames_full; [apply decode_frame_full|]; assumption. }
  split.
  - unfold count_after at 1. unfold prev_after.
    rewrite frames_loop_app. unfold bind. rewrite Hn.
    rewrite (frames_loop_eof k _ s _ [] Hlen).
    rewrite (update_empty_full _ Hfull).
    unfold count_after. rewrite En. reflexivity.
  - unfold count_after. rewrite En. reflexivity.
Qed.

Lemma X20_cut_at_frame_boundary_witness :
  count_after cut_stream 24 3 = count_after cut_stream 24 1 + 4.
Proof.
  pose proof (X20_cut_at_frame_boundary (header_bytes x00 x02 x03 x00 x14)
                [repeat x00 48] 24 1) as H.
  cbv zeta in H. destruct H as (H & _).
  - reflexivity.
  - discriminate.
  - repeat constructor.
  - exact H.
Defined.

(** ** The closure halves in the loop *)

Lemma b2z_differs_zero {A} (eqb : A -> A -> bool)
    (eqb_eq : forall x y, eqb x y = true <-> x = y) (l : list A) prev :
  0 <= b2z (differs eqb l prev) <= 1
  /\ (b2z (differs eqb l prev) = 0 <-> prev = Some l).
Proof.
  split; [apply b2z_range|].
  rewrite <- (differs_false eqb eqb_eq).
  destruct (differs eqb l prev); cbn; split; intros H;
    try reflexivity; discriminate.
Qed.

(** C3: in the loop, the frame that follows any number of complete frames
    has its 16 closure bytes (bytes 30 to 45 of the frame) mapped through
    [(byte // 32 + 1) // 2], with no clamp (byte 0 gives 0, byte 255 gives
    4); the 16 levels split into the first 10 and the last 6, and each half
    is compared with its own vector retained from the frames before: a half
    equal to its retained vector adds nothing to the counter, a half that
    differs from it (or has none retained) adds exactly one, whatever the
    other half and the lights do; either way the half is what is retained
    after the frame. *)
Theorem C3_closure_quantization (pre f rest : list byte)
    (before : list (list byte)) (start : Z) :
  length pre = Z.to_nat start ->
  Forall (fun g => length g = 48%nat) before ->
  length f = 48%nat ->
  let s := pre ++ concat before ++ f ++ rest in
  let cs := map (fun b => closure_level_spec (u8 b)) (firstn 16 (skipn 30 f)) in
  let p := prev_after s start (length before) in
  let p' := prev_after s start (S (length before)) in
  closure_level_spec 0 = 0 /\ closure_level_spec 255 = 4
  /\ length cs = 16%nat
  /\ length (firstn 10 cs) = 10%nat /\ length (skipn 10 cs) = 6%nat
  /\ prev_closure_1 p' = Some (firstn 10 cs)
  /\ prev_closure_2 p' = Some (skipn 10 cs)
  /\ exists dl dr d1 d2,
       count p' = count p + dl + dr + d1 + d2
       /\ 0 <= dl <= 1 /\ 0 <= dr <= 1 /\ 0 <= d1 <= 1 /\ 0 <= d2 <= 1
       /\ (dl = 0 <-> prev_light p = Some (light_state (firstn 30 f)))
       /\ (dr = 0 <-> prev_ramp p = Some (ramp_state (firstn 30 f)))
       /\ (d1 = 0 <-> prev_closure_1 p = Some (firstn 10 cs))
       /\ (d2 = 0 <-> prev_closure_2 p = Some (skipn 10 cs)).
Proof.
  intros Hpre Hall Hf s cs p p'.
  assert (Hs : skipn (Z.to_nat start) s = concat before ++ f ++ rest).
  { subst s. rewrite <- Hpre. apply skipn_prefix. }
  assert (Ep : p = fold_frames before init_prev).
  { subst p. unfold prev_after.
    rewrite (frames_loop_complete before init_prev s _ [] (f ++ rest) Hs Hall).
    reflexivity. }
  assert (Ep' : p' = decode_frame p f).
  { subst p'. unfold prev_after.
    replace (S (length before)) with (length (before ++ [f]))
      by (rewrite length_app; cbn; lia).
    rewrite (frames_loop_complete (before ++ [f]) init_prev s _ [] rest).
    - cbn [fst]. unfold fold_frames. rewrite fold_left_app. cbn [fold_left].
      rewrite Ep. reflexivity.
    - rewrite Hs, concat_app. cbn [concat].
      rewrite app_nil_r, <- app_assoc. reflexivity.
    - apply Forall_app. split; [exact Hall | repeat constructor; exact Hf]. }
  assert (Hcs : length cs = 16%nat).
  { subst cs. rewrite length_map, length_firstn, length_skipn, Hf.
    reflexivity. }
  split; [reflexivity|]. split; [reflexivity|]. split; [exact Hcs|].
  split; [rewrite length_firstn, Hcs; reflexivity|].
  split; [rewrite length_skipn, Hcs; reflexivity|].
  rewrite Ep'. unfold decode_frame. rewrite update_spec.
  cbn [prev_closure_1 prev_closure_2 count].
  change (closure_state (firstn 16 (skipn 30 f))) with cs.
  split; [reflexivity|]. split; [reflexivity|].
  destruct (b2z_differs_zero Bool.eqb Bool.eqb_true_iff
              (light_state (firstn 30 f)) (prev_light p)) as (Rl & Il).
  destruct (b2z_differs_zero Z.eqb Z.eqb_eq
              (ramp_state (firstn 30 f)) (prev_ramp p)) as (Rr & Ir).
  destruct (b2z_differs_zero Z.eqb Z.eqb_eq
              (firstn 10 cs) (prev_closure_1 p)) as (R1 & I1).
  destruct (b2z_differs_zero Z.eqb Z.eqb_eq
              (skipn 10 cs) (prev_closure_2 p)) as (R2 & I2).
  eexists _, _, _, _. split; [reflexivity|].
  repeat (split; [assumption|]). assumption.
Qed.

(** On [half_change_stream] the second frame keeps the first closure half
    and changes the second to level 4: the counter grows by one. *)
Lemma C3_closure_quantization_witness :
  count_after half_change_stream 24 2 = count_after half_change_stream 24 1 + 1
  /\ prev_closure_1 (prev_after half_change_stream 24 2) = Some (repeat 0 10)
  /\ prev_closure_2 (prev_after half_change_stream 24 2) = Some (repeat 4 6).
Proof.
  pose proof (C3_closure_quantization (header_bytes x00 x02 x02 x00 x14)
                half_change_frame [] [repeat x00 48] 24 eq_refl) as H.
  cbv zeta in H.
  destruct H as (_ & _ & _ & _ & _ & H1 & H2 & dl & dr & d1 & d2 & Hc
                 & Rl & Rr & R1 & R2 & Il & Ir & I1 & I2).
  - repeat constructor.
  - reflexivity.
  - split; [|split; [exact H1 | exact H2]].
    assert (El : dl = 0) by (apply Il; reflexivity).
    assert (Er : dr = 0) by (apply Ir; reflexivity).
    assert (E1 : d1 = 0) by (apply I1; reflexivity).
    assert (E2 : d2 = 1).
    { destruct (Z.eq_dec d2 0) as [E|E]; [|lia].
      apply I2 in E. discriminate E. }
    unfold count_after, half_change_stream.
    change (length [repeat x00 48]) with 1%nat in Hc.
    rewrite Hc, El, Er, E1, E2. lia.
Defined.
